(** * Shallow embedding of the Spacker analysis scripts

    Sources:
    - experiments/exp_scripts/analysis/overhead/pareto/pareto_curve_batching.py
      (function [ReadFile]: latency traces and timer breakdowns)
    - experiments/exp_scripts/analysis/workloads/breakdown/breakdown_batching_input_rate.py
      (function [ReadFile]: completion time per input rate)

    Python exceptions are the [Err] branch of a small error monad.  Latencies
    and timestamps are Python ints ([Z]); timer durations are divided with
    Python's true division and are kept exact as [Q]. *)

From Stdlib Require Import ZArith QArith List Lia Bool Ascii String.
From Stdlib Require Import Sorted Permutation.
Import ListNotations.

Open Scope Z_scope.

(* ------------------------------------------------------------------ *)
(** ** Python exceptions as an error monad *)

Inductive exn : Type :=
| IndexError
| ValueError
| FileNotFoundError
| ZeroDivisionError.

Inductive result (A : Type) : Type :=
| Ok (a : A)
| Err (e : exn).
Arguments Ok {A} a.
Arguments Err {A} e.

Definition bind {A B : Type} (m : result A) (f : A -> result B) : result B :=
  match m with
  | Ok a => f a
  | Err e => Err e
  end.

Notation "'let*' x ':=' m 'in' f" := (bind m (fun x => f))
  (at level 200, x name, m at level 100, f at level 200).

Definition of_option {A : Type} (e : exn) (o : option A) : result A :=
  match o with
  | Some a => Ok a
  | None => Err e
  end.

(* ------------------------------------------------------------------ *)
(** ** Python string operations used on trace lines *)

(** Text after the first occurrence of [sep] in [s], if any. *)
Fixpoint after_first (sep s : string) : option string :=
  if String.prefix sep s then Some (String.substring (String.length sep)
                                      (String.length s - String.length sep) s)
  else match s with
       | EmptyString => None
       | String _ s' => after_first sep s'
       end.

(** Text of [s] before the first occurrence of [sep] (all of [s] if none). *)
Fixpoint before_first (sep s : string) : string :=
  if String.prefix sep s then EmptyString
  else match s with
       | EmptyString => EmptyString
       | String c s' => String c (before_first sep s')
       end.

(** [s.find(sep) != -1] *)
Definition contains (sep s : string) : bool :=
  match after_first sep s with
  | Some _ => true
  | None => false
  end.

(** [s.split(sep)[1]]: the piece between the first and the second
    occurrence of [sep]; IndexError when [sep] does not occur. *)
Definition split1 (sep s : string) : result string :=
  match after_first sep s with
  | Some rest => Ok (before_first sep rest)
  | None => Err IndexError
  end.

(** [s[:13]] *)
Definition take13 (s : string) : string := String.substring 0 13 s.

(** Characters stripped by [int()]: ASCII characters with [str.isspace()]. *)
Definition is_space (c : ascii) : bool :=
  let n := nat_of_ascii c in
  ((9 <=? n) && (n <=? 13))%nat || ((28 <=? n) && (n <=? 32))%nat.

Fixpoint lstrip (l : list ascii) : list ascii :=
  match l with
  | [] => []
  | c :: l' => if is_space c then lstrip l' else l
  end.

Definition strip (l : list ascii) : list ascii := rev (lstrip (rev (lstrip l))).

Definition digit_value (c : ascii) : option Z :=
  let n := nat_of_ascii c in
  if ((48 <=? n) && (n <=? 57))%nat then Some (Z.of_nat n - 48) else None.

(** Decimal digits, single underscores allowed between digits. *)
Fixpoint digits_acc (acc : Z) (prev_us : bool) (l : list ascii) : option Z :=
  match l with
  | [] => if prev_us then None else Some acc
  | c :: l' =>
      if Ascii.eqb c "_"%char then
        if prev_us then None else digits_acc acc true l'
      else match digit_value c with
           | Some d => digits_acc (10 * acc + d) false l'
           | None => None
           end
  end.

Definition parse_digits (l : list ascii) : option Z :=
  match l with
  | c :: _ => match digit_value c with
              | Some _ => digits_acc 0 false l
              | None => None
              end
  | [] => None
  end.

(** [int(s)] on a str: surrounding whitespace, optional sign, digits. *)
Definition py_int_opt (s : string) : option Z :=
  match strip (list_ascii_of_string s) with
  | c :: r =>
      if Ascii.eqb c "-"%char then option_map Z.opp (parse_digits r)
      else if Ascii.eqb c "+"%char then parse_digits r
      else parse_digits (c :: r)
  | [] => None
  end.

Definition py_int (s : string) : result Z := of_option ValueError (py_int_opt s).

(* ------------------------------------------------------------------ *)
(** ** Latency traces: lines 66-89 of pareto_curve_batching.py *)

Definition lat_marker : string := "endToEnd latency: ".
Definition ts_marker : string := "ts: ".

(** [int(int(x) / 1000)]: true division then truncation toward zero.  For
    the at most 13-character integers read here ([|x| < 10^13]) the double
    [x / 1000] is within [2^-19] of the exact quotient and never crosses an
    integer, so the result is exactly [Z.quot x 1000]. *)
Definition coarsen (x : Z) : Z := Z.quot x 1000.

(** [temp_dict]: an insertion-ordered dict from second to latencies. *)
Definition timeline := list (Z * list Z).

(** [if ts not in temp_dict: temp_dict[ts] = []; temp_dict[ts].append(latency)] *)
Fixpoint dict_append (k v : Z) (d : timeline) : timeline :=
  match d with
  | [] => [(k, [v])]
  | (k', vs) :: d' =>
      if Z.eqb k k' then (k', vs ++ [v]) :: d' else (k', vs) :: dict_append k v d'
  end.

(** Loop state: [start_ts] ([None] is [float('inf')]) and [temp_dict]. *)
Record lat_state := mk_lat_state {
  start_ts : option Z;
  temp_dict : timeline
}.

Definition lat_init : lat_state := mk_lat_state None [].

(** [if ts < start_ts: start_ts = ts] *)
Definition update_start (ts : Z) (start : option Z) : option Z :=
  match start with
  | None => Some ts
  | Some s => if ts <? s then Some ts else Some s
  end.

(** Body of [for r in read:] *)
Definition process_line (st : lat_state) (r : string) : result lat_state :=
  if contains lat_marker r then
    let* seg := split1 ts_marker r in
    let* n := py_int (take13 seg) in
    let ts := coarsen n in
    let start' := update_start ts (start_ts st) in
    let* lseg := split1 lat_marker r in
    let* latency := py_int lseg in
    Ok (mk_lat_state start' (dict_append ts latency (temp_dict st)))
  else Ok st.

Fixpoint process_lines (st : lat_state) (rs : list string) : result lat_state :=
  match rs with
  | [] => Ok st
  | r :: rs' =>
      let* st' := process_line st r in
      process_lines st' rs'
  end.

(** Body of [for tid in range(0, 8):]; [None] is a file for which
    [os.path.isfile] is false, [Some lines] its [readlines()]. *)
Definition process_task (st : lat_state) (file : option (list string)) : result lat_state :=
  match file with
  | None => Ok st
  | Some lines => process_lines st lines
  end.

Fixpoint read_tasks (st : lat_state) (files : list (option (list string))) : result lat_state :=
  match files with
  | [] => Ok st
  | f :: fs => let* st' := process_task st f in read_tasks st' fs
  end.

(** The file system seen by the latency loop: the trace file
    [spector-{per_key_state_size}-{sync_keys}-{replicate_keys_filter}/Splitter FlatMap-{tid}.output]
    depends on [sync_keys] and [tid] only. *)
Definition trace_fs := Z -> nat -> option (list string).

Definition task_ids : list nat := seq 0 8.

Definition task_files (fs : trace_fs) (sync_keys : Z) : list (option (list string)) :=
  map (fs sync_keys) task_ids.

(** [list.sort()] on ints (any correct sort gives the same list). *)
Fixpoint insert_sorted (x : Z) (l : list Z) : list Z :=
  match l with
  | [] => [x]
  | y :: l' => if x <=? y then x :: l else y :: insert_sorted x l'
  end.

Fixpoint py_sort (l : list Z) : list Z :=
  match l with
  | [] => []
  | x :: l' => insert_sorted x (py_sort l')
  end.

(** [floor(n * 0.99)]: the double nearest 0.99 is below 0.99 by less than
    [10^-17], far less than half an ulp of [n * 0.99], so the float product
    floors to the exact [floor(99 n / 100)]. *)
Definition p99_index (n : nat) : nat := Z.to_nat (Z.of_nat n * 99 / 100).

Definition py_index (l : list Z) (i : nat) : result Z := of_option IndexError (nth_error l i).

(** [ts - start_ts]; [None] is [ts - float('inf')], i.e. [-inf]. *)
Definition offset (ts : Z) (start : option Z) : option Z :=
  match start with
  | Some s => Some (ts - s)
  | None => None
  end.

(** Lines 91-95: [for ts in temp_dict: sort; coly.append(...); col.append(...)] *)
Fixpoint bins (start : option Z) (d : timeline) : result (list (option Z) * list Z) :=
  match d with
  | [] => Ok ([], [])
  | (ts, vs) :: d' =>
      let sv := py_sort vs in
      let* t := py_index sv (p99_index (List.length sv)) in
      let* cc := bins start d' in
      Ok (offset ts start :: fst cc, t :: snd cc)
  end.

(** [coly[-1]] *)
Definition py_last (l : list Z) : result Z :=
  match rev l with
  | [] => Err IndexError
  | x :: _ => Ok x
  end.

(** One iteration of [for sync_keys in keys:] (lines 64-106), returning
    [col], [coly] and [latency_dict[sync_keys]]. *)
Definition config_bins (fs : trace_fs) (sync_keys : Z) : result (lat_state * (list (option Z) * list Z)) :=
  let* st := read_tasks lat_init (task_files fs sync_keys) in
  let* cc := bins (start_ts st) (temp_dict st) in
  Ok (st, cc).

Definition config_latency (fs : trace_fs) (sync_keys : Z) : result Z :=
  let* r := config_bins fs sync_keys in
  py_last (py_sort (snd (snd r))).

(** [latency_dict[sync_keys] = ...]: dict assignment keeps first position. *)
Fixpoint dict_set {V : Type} (k : Z) (v : V) (d : list (Z * V)) : list (Z * V) :=
  match d with
  | [] => [(k, v)]
  | (k', v') :: d' => if Z.eqb k k' then (k', v) :: d' else (k', v') :: dict_set k v d'
  end.

(** [keys = [1, 2, 4, 8, 16, 32, 64]] *)
Definition keys : list Z := [1; 2; 4; 8; 16; 32; 64].

(** Lines 62-106: the latency loop over [keys], building [latency_dict]. *)
Fixpoint latency_loop (fs : trace_fs) (ks : list Z) (ld : list (Z * Z)) : result (list (Z * Z)) :=
  match ks with
  | [] => Ok ld
  | k :: ks' =>
      let* v := config_latency fs k in
      latency_loop fs ks' (dict_set k v ld)
  end.

(* ------------------------------------------------------------------ *)
(** ** Timer breakdowns: lines 108-145 of pareto_curve_batching.py *)

Open Scope Q_scope.

(** [stats = breakdown_total(open(file_path).readlines())]: the dict from
    phase name to total duration returned by the breakdown routine. *)
Definition stats := list (string * Q).

Fixpoint stats_get (name : string) (s : stats) : option Q :=
  match s with
  | [] => None
  | (n, v) :: s' => if String.eqb name n then Some v else stats_get name s'
  end.

(** A 2-D Python list of numbers, [y[j][i]]. *)
Definition matrix := list (list Q).

Fixpoint set_nth {A : Type} (l : list A) (i : nat) (v : A) : option (list A) :=
  match l, i with
  | [], _ => None
  | _ :: l', O => Some (v :: l')
  | x :: l', S i' => option_map (cons x) (set_nth l' i' v)
  end.

Definition get2 (y : matrix) (j i : nat) : result Q :=
  let* row := of_option IndexError (nth_error y j) in
  of_option IndexError (nth_error row i).

(** [y[j][i] = v] *)
Definition set2 (y : matrix) (j i : nat) (v : Q) : result matrix :=
  let* row := of_option IndexError (nth_error y j) in
  let* row' := of_option IndexError (set_nth row i v) in
  of_option IndexError (set_nth y j row').

(** [if timers_plot[j] not in stats: y[j][i] = 0 else: y[j][i] += stats[timers_plot[j]]] *)
Definition update_cell (timers_plot : list string) (s : stats) (i : nat)
    (y : matrix) (j : nat) : result matrix :=
  let* name := of_option IndexError (nth_error timers_plot j) in
  match stats_get name s with
  | None => set2 y j i 0
  | Some v => let* cur := get2 y j i in set2 y j i (cur + v)
  end.

Fixpoint mfold {A B : Type} (f : A -> B -> result A) (a : A) (l : list B) : result A :=
  match l with
  | [] => Ok a
  | b :: l' => let* a' := f a b in mfold f a' l'
  end.

(** [for j in range(3): ...] *)
Definition update_column (timers_plot : list string) (s : stats) (y : matrix) (i : nat) : result matrix :=
  mfold (update_cell timers_plot s i) y (seq 0 3).

(** [[[0 for x in range(w)] for y in range(h)]] *)
Definition zeros (w h : nat) : matrix := repeat (repeat 0 w) h.

(** The timer file [spector-{per_key_state_size}-{sync_keys}-{replicate_keys_filter}/timer.output]
    as seen through [breakdown_total]: [None] when [open] fails. *)
Definition timer_fs := Z -> option stats.

(** One pass of [for sync_keys in keys:] inside [for repeat ...] (lines 109-123). *)
Definition timer_pass (timers_plot : list string) (mfs : timer_fs) (y : matrix) : result matrix :=
  mfold (fun y ik =>
           let* s := of_option FileNotFoundError (mfs (snd ik)) in
           update_column timers_plot s y (fst ik))
        y (combine (seq 0 (List.length keys)) keys).

(** [for repeat in range(1, repeat_num + 1):] *)
Fixpoint timer_loop (timers_plot : list string) (mfs : timer_fs) (repeat_num : nat) (y : matrix) : result matrix :=
  match repeat_num with
  | O => Ok y
  | S r => let* y' := timer_pass timers_plot mfs y in timer_loop timers_plot mfs r y'
  end.

(** [y[j][i] = y[j][i] / repeat_num] over all cells (lines 131-133). *)
Definition average (y : matrix) (repeat_num : nat) : result matrix :=
  if Nat.eqb repeat_num 0 then Err ZeroDivisionError
  else Ok (map (map (fun v => v / inject_Z (Z.of_nat repeat_num))) y).

(** [completion_time = 0; for j in range(h): completion_time += y[j][i]] *)
Definition completion_of (y : matrix) (i : nat) : Q :=
  fold_left (fun acc j => acc + nth i (nth j y []) 0) (seq 0 3) 0.

(** Lines 141-145: [completion_time_dict]. *)
Definition completion_dict (y : matrix) : list (Z * Q) :=
  fold_left (fun d i => dict_set (nth i keys 0%Z) (completion_of y i) d) (seq 0 7) [].

(** The averaged phase matrix and [completion_time_dict] (lines 108-145). *)
Definition phase_summary (timers_plot : list string) (mfs : timer_fs) (repeat_num : nat)
    : result (matrix * list (Z * Q)) :=
  let* y := timer_loop timers_plot mfs repeat_num (zeros 7 3) in
  let* ya := average y repeat_num in
  Ok (ya, completion_dict ya).

(** [ReadFile] of pareto_curve_batching.py: [(x_axis, y_axis)], the
    [latency_dict.values()] series written as a list of numbers. *)
Definition pareto_ReadFile (timers_plot : list string) (repeat_num : nat)
    (tfs : trace_fs) (mfs : timer_fs) : result (list (list Z) * list (list Q)) :=
  let* ld := latency_loop tfs keys [] in
  let* ps := phase_summary timers_plot mfs repeat_num in
  let ya := fst ps in
  let sync_time := nth 0 ya [] in
  let update_time := nth 2 ya [] in
  Ok ([keys; keys; keys], [sync_time; update_time; map (fun kv => inject_Z (snd kv)) ld]).

(* ------------------------------------------------------------------ *)
(** ** breakdown_batching_input_rate.py, [ReadFile(repeat_num)] *)

(** The timer file of [workloads/spector-{per_task_rate}-...-{sync_keys}-...]
    depends on [per_task_rate] and [sync_keys] only. *)
Definition rate_timer_fs := Z -> Z -> option stats.

Definition rates : list Z := [1000; 2000; 4000; 8000]%Z.

(** [[1, 8, int(max_parallelism / parallelism / 2)]] *)
Definition bd_sync_keys (last_keys : Z) : list Z := [1; 8; last_keys]%Z.

(** [for sync_keys in [...]:] filling a fresh [col_y] (lines 23-39). *)
Definition bd_columns (timers_plot : list string) (mfs : rate_timer_fs) (last_keys rate : Z)
    : result matrix :=
  mfold (fun y ik =>
           let* s := of_option FileNotFoundError (mfs rate (snd ik)) in
           update_column timers_plot s y (fst ik))
        (zeros 3 3) (combine (seq 0 3) (bd_sync_keys last_keys)).

(** [y[i].append(completion_time)] for [i] in [range(w)]. *)
Definition bd_append (y : matrix) (col_y : matrix) : result matrix :=
  mfold (fun y i =>
           let* row := of_option IndexError (nth_error y i) in
           of_option IndexError (set_nth y i (row ++ [completion_of col_y i])))
        y (seq 0 3).

(** Body of [for per_task_rate in [1000, 2000, 4000, 8000]:] *)
Definition bd_rate (timers_plot : list string) (mfs : rate_timer_fs) (last_keys : Z)
    (repeat_num : nat) (y : matrix) (rate : Z) : result matrix :=
  let* col_y := bd_columns timers_plot mfs last_keys rate in
  let* col_y' := average col_y repeat_num in
  bd_append y col_y'.

Fixpoint bd_repeat (timers_plot : list string) (mfs : rate_timer_fs) (last_keys : Z)
    (repeat_num r : nat) (y : matrix) : result matrix :=
  match r with
  | O => Ok y
  | S r' =>
      let* y' := mfold (bd_rate timers_plot mfs last_keys repeat_num) y rates in
      bd_repeat timers_plot mfs last_keys repeat_num r' y'
  end.

Definition breakdown_ReadFile (timers_plot : list string) (mfs : rate_timer_fs)
    (last_keys : Z) (repeat_num : nat) : result matrix :=
  bd_repeat timers_plot mfs last_keys repeat_num repeat_num [[]; []; []].

Close Scope Q_scope.

(* ------------------------------------------------------------------ *)
(** ** Reference quantities the properties are stated with *)

(** Number of latency samples held in [temp_dict]. *)
Definition timeline_count (d : timeline) : nat :=
  fold_right (fun b n => (List.length (snd b) + n)%nat) O d.

Definition sample_count (st : lat_state) : nat := timeline_count (temp_dict st).

(** [sorted(bin_values)[floor(0.99 * len(bin_values))]] *)
Definition bin_tail (vs : list Z) : Z := nth (p99_index (List.length vs)) (py_sort vs) 0.

(** Maximum over the bins of their tail value; [None] for no bins. *)
Definition spike_spec (d : timeline) : option Z :=
  match map (fun b => bin_tail (snd b)) d with
  | [] => None
  | x :: xs => Some (fold_left Z.max xs x)
  end.

(** The seconds present in a timeline. *)
Definition bin_keys (d : timeline) : list Z := map fst d.

(** Invariant of the latency loop: every bin holds a sample, and
    [start_ts] is finite exactly when some bin exists, in which case it is
    the least second present. *)
Definition lat_inv (st : lat_state) : Prop :=
  Forall (fun b => snd b <> []) (temp_dict st) /\
  match start_ts st with
  | None => temp_dict st = []
  | Some m => In m (bin_keys (temp_dict st)) /\
              forall ts, In ts (bin_keys (temp_dict st)) -> m <= ts
  end.

(** Latency-marker lines of one task file ([None]: no file). *)
Definition marker_free (file : option (list string)) : Prop :=
  match file with
  | None => True
  | Some lines => Forall (fun r => contains lat_marker r = false) lines
  end.

(** Lines of the files that exist, in task order. *)
Definition present_lines (files : list (option (list string))) : list string :=
  List.concat (map (fun f => match f with Some ls => ls | None => [] end) files).

(** Latencies held in a timeline, bin by bin. *)
Definition latency_values (d : timeline) : list Z := List.concat (map snd d).

(** Number of lines carrying the latency marker. *)
Definition marker_count (rs : list string) : nat := List.length (filter (contains lat_marker) rs).

Open Scope string_scope.

(** A single task's trace with the two records of the spec's scenario. *)
Definition scenario_line_1 : string :=
  "Splitter ts: 1680000000000 key: 3 endToEnd latency: 42".
Definition scenario_line_2 : string :=
  "Splitter ts: 1680000001000 key: 5 endToEnd latency: 58".
Definition scenario_fs : trace_fs :=
  fun _ tid => if Nat.eqb tid 0 then Some [scenario_line_1; "checkpoint done"; scenario_line_2] else None.

(** The latency-loop state the scenario's trace leads to. *)
Definition scenario_state : lat_state :=
  mk_lat_state (Some 1680000000%Z) [(1680000000%Z, [42%Z]); (1680000001%Z, [58%Z])].

(** Trace lines outside the usual record shape. *)
Definition no_ts_line : string := "endToEnd latency: 5".
Definition negative_ts_line : string := "ts: -000000000001 endToEnd latency: 1".
Definition double_marker_line : string :=
  "ts: 1680000000000 endToEnd latency: 5 endToEnd latency: 6".
Definition diagnostic_line : string := "checkpoint done".

Close Scope string_scope.

Open Scope Q_scope.


(** A [h] x [w] matrix. *)
Definition shape (w h : nat) (y : matrix) : Prop :=
  List.length y = h /\ Forall (fun row => List.length row = w) y.


(** The averaging the spec describes: the sum over the runs of a phase's
    duration (0 when absent from a run) divided by the number of runs. *)
Definition avg_spec (runs : list stats) (name : string) : Q :=
  fold_right (fun s acc => match stats_get name s with Some v => v | None => 0 end + acc) 0 runs
  / inject_Z (Z.of_nat (List.length runs)).

Definition phase_names : list string := ["sync"; "replication"; "update"]%string.

(** Timer breakdowns reporting only a sync duration of 10. *)
Definition sync10 : stats := [("sync"%string, 10)].
Definition sync20 : stats := [("sync"%string, 20)].
Definition sync10_fs : timer_fs := fun _ => Some sync10.
Definition sync10_rate_fs : rate_timer_fs := fun _ _ => Some sync10.

(** The output of [ReadFile] on the scenario traces and [sync10] timers. *)
Definition scenario_curve : list (list Z) * list (list Q) :=
  match pareto_ReadFile phase_names 1 scenario_fs sync10_fs with
  | Ok p => p
  | Err _ => ([], [])
  end.


(** The completion-time series of breakdown_batching_input_rate.py for
    [ReadFile(repeat_num=2)] with [sync10] timers. *)
Definition sync10_breakdown : matrix :=
  match breakdown_ReadFile phase_names sync10_rate_fs 16 2 with
  | Ok y => y
  | Err _ => []
  end.

(** [y[j][i]], read as 0 outside the matrix. *)
Definition cell (y : matrix) (j i : nat) : Q := nth i (nth j y []) 0.

(** What one visit of the timer loop does to [y[j][i]] given
    [stats.get(timers_plot[j])]: reset to 0 when absent, add otherwise. *)
Definition cell_step (o : option Q) (x : Q) : Q :=
  match o with
  | None => 0
  | Some v => x + v
  end.

(** The duration a breakdown reports for [timers_plot[j]], 0 when absent. *)
Definition phase_value (timers_plot : list string) (s : stats) (j : nat) : Q :=
  match stats_get (nth j timers_plot EmptyString) s with
  | Some v => v
  | None => 0
  end.

Definition phase_total (timers_plot : list string) (s : stats) : Q :=
  phase_value timers_plot s 0 + phase_value timers_plot s 1 + phase_value timers_plot s 2.

(** The value breakdown_batching_input_rate.py appends for [per_task_rate]
    and the [i]-th sync key: the phase total of that one timer file divided
    by [repeat_num]. *)
Definition bd_entry (timers_plot : list string) (mfs : rate_timer_fs) (last_keys : Z)
    (repeat_num : nat) (rate : Z) (i : nat) : Q :=
  match mfs rate (nth i (bd_sync_keys last_keys) 0%Z) with
  | Some s => phase_total timers_plot s / inject_Z (Z.of_nat repeat_num)
  | None => 0
  end.



Close Scope Q_scope.

(* ================================================================== *)
(** * Properties *)

(** ** Trace lines *)

Lemma contains_false_after (sep r : string) :
  contains sep r = false -> after_first sep r = None.
Proof. unfold contains. destruct (after_first sep r); congruence. Qed.

Lemma split1_contains (sep r seg : string) :
  split1 sep r = Ok seg -> contains sep r = true.
Proof. unfold split1, contains. destruct (after_first sep r); congruence. Qed.

Lemma dict_append_count (k v : Z) (d : timeline) :
  timeline_count (dict_append k v d) = S (timeline_count d).
Proof.
  induction d as [|[k' vs] d IH]; simpl; [reflexivity|].
  destruct (k =? k'); simpl; [rewrite length_app; simpl; lia | rewrite IH; lia].
Qed.

Lemma process_line_skip (st : lat_state) (r : string) :
  contains lat_marker r = false -> process_line st r = Ok st.
Proof. intros H. unfold process_line. rewrite H. reflexivity. Qed.

Lemma process_line_no_ts (st : lat_state) (r : string) :
  contains lat_marker r = true -> contains ts_marker r = false ->
  process_line st r = Err IndexError.
Proof.
  intros H1 H2. unfold process_line. rewrite H1. unfold split1.
  rewrite (contains_false_after _ _ H2). reflexivity.
Qed.

(** The shape of a processed latency line. *)
Lemma process_line_ok (st st' : lat_state) (r : string) :
  contains lat_marker r = true -> process_line st r = Ok st' ->
  exists seg n lseg latency,
    split1 ts_marker r = Ok seg /\ py_int (take13 seg) = Ok n /\
    split1 lat_marker r = Ok lseg /\ py_int lseg = Ok latency /\
    st' = mk_lat_state (update_start (coarsen n) (start_ts st))
                       (dict_append (coarsen n) latency (temp_dict st)).
Proof.
  intros Hc H. unfold process_line in H. rewrite Hc in H.
  destruct (split1 ts_marker r) as [seg|e] eqn:E1; cbn [bind] in H; [|discriminate].
  destruct (py_int (take13 seg)) as [n|e] eqn:E2; cbn [bind] in H; [|discriminate].
  destruct (split1 lat_marker r) as [lseg|e] eqn:E3; cbn [bind] in H; [|discriminate].
  destruct (py_int lseg) as [lat|e] eqn:E4; cbn [bind] in H; [|discriminate].
  injection H as <-. exists seg, n, lseg, lat. repeat split; first [assumption | reflexivity].
Qed.

Lemma process_line_sample (st st' : lat_state) (r : string) :
  process_line st r = Ok st' -> contains lat_marker r = true ->
  contains ts_marker r = true /\ sample_count st' = S (sample_count st).
Proof.
  intros H Hc.
  destruct (process_line_ok st st' r Hc H) as (seg & n & lseg & lat & E1 & _ & _ & _ & ->).
  split; [exact (split1_contains _ _ _ E1)|].
  unfold sample_count. simpl. apply dict_append_count.
Qed.

(** Exact success condition of a latency-marker line. *)
Lemma process_line_ok_iff (st : lat_state) (r : string) :
  contains lat_marker r = true ->
  ((exists st', process_line st r = Ok st') <->
   (exists seg, split1 ts_marker r = Ok seg /\ py_int_opt (take13 seg) <> None) /\
   (exists lseg, split1 lat_marker r = Ok lseg /\ py_int_opt lseg <> None)).
Proof.
  intros Hc. split.
  - intros [st' H].
    destruct (process_line_ok st st' r Hc H) as (seg & n & lseg & lat & E1 & E2 & E3 & E4 & _).
    unfold py_int, of_option in E2, E4.
    split; [exists seg | exists lseg]; split; try assumption; intros Hn;
      [rewrite Hn in E2 | rewrite Hn in E4]; discriminate.
  - intros [[seg [E1 N1]] [lseg [E3 N3]]].
    unfold process_line. rewrite Hc, E1. cbn [bind]. unfold py_int at 1.
    destruct (py_int_opt (take13 seg)) as [n|]; [|congruence]. cbn [of_option bind].
    rewrite E3. cbn [bind]. unfold py_int.
    destruct (py_int_opt lseg) as [lat|]; [|congruence]. cbn [of_option bind].
    eexists. reflexivity.
Qed.

Lemma coarsen_floor (n : Z) : 0 <= n -> coarsen n = n / 1000.
Proof. intros H. unfold coarsen. apply Z.quot_div_nonneg; lia. Qed.

(** ** Sorting *)

Lemma insert_sorted_perm (x : Z) (l : list Z) : Permutation (x :: l) (insert_sorted x l).
Proof.
  induction l as [|y l IH]; simpl; [reflexivity|].
  destruct (x <=? y); [reflexivity|].
  transitivity (y :: x :: l); [constructor|constructor; exact IH].
Qed.

Lemma py_sort_perm (l : list Z) : Permutation l (py_sort l).
Proof.
  induction l as [|x l IH]; simpl; [reflexivity|].
  transitivity (x :: py_sort l); [constructor; exact IH | apply insert_sorted_perm].
Qed.

Lemma insert_sorted_sorted (x : Z) (l : list Z) :
  Sorted Z.le l -> Sorted Z.le (insert_sorted x l).
Proof.
  induction 1 as [|y l Hs IH Hhd]; simpl; [repeat constructor|].
  destruct (x <=? y) eqn:E.
  - apply Z.leb_le in E. constructor; [constructor; assumption | constructor; exact E].
  - apply Z.leb_gt in E. constructor; [exact IH|].
    destruct l as [|z l]; simpl; [constructor; lia|].
    destruct (x <=? z); constructor; [lia|]. inversion Hhd; assumption.
Qed.

Lemma py_sort_sorted (l : list Z) : Sorted Z.le (py_sort l).
Proof. induction l as [|x l IH]; simpl; [constructor | apply insert_sorted_sorted, IH]. Qed.

Lemma strongly_sorted_app_last (a : list Z) (m : Z) :
  StronglySorted Z.le (a ++ [m]) -> forall y, In y a -> y <= m.
Proof.
  induction a as [|x a IH]; simpl; [tauto|].
  intros H y [<-|Hy].
  - apply StronglySorted_inv in H as [_ HF].
    rewrite Forall_forall in HF. apply HF, in_or_app. right; left; reflexivity.
  - apply StronglySorted_inv in H as [H _]. exact (IH H y Hy).
Qed.

(** The last element of a sorted list is its maximum. *)
Lemma sorted_last_max (l : list Z) (m : Z) (rest : list Z) :
  Sorted Z.le l -> rev l = m :: rest -> In m l /\ forall y, In y l -> y <= m.
Proof.
  intros Hs Hr.
  assert (El : l = rev rest ++ [m]) by (rewrite <- (rev_involutive l), Hr; reflexivity).
  subst l. split; [apply in_or_app; right; left; reflexivity|].
  apply Sorted_StronglySorted in Hs; [|intros a b c; lia].
  intros y Hy. apply in_app_or in Hy as [Hy|[<-|[]]]; [|lia].
  exact (strongly_sorted_app_last _ _ Hs y Hy).
Qed.

Lemma fold_max_spec (xs : list Z) (x : Z) :
  In (fold_left Z.max xs x) (x :: xs) /\ forall y, In y (x :: xs) -> y <= fold_left Z.max xs x.
Proof.
  revert x. induction xs as [|z xs IH]; intros x; simpl.
  - split; [left; reflexivity | intros y [<-|[]]; lia].
  - destruct (IH (Z.max x z)) as [Hin Hle]. split.
    + destruct Hin as [Hm|Hin]; [|right; right; exact Hin].
      rewrite <- Hm.
      destruct (Z.max_spec x z) as [[_ E]|[_ E]]; rewrite E; [right; left|left]; reflexivity.
    + intros y [<-|[<-|Hy]].
      * specialize (Hle (Z.max x z) (or_introl eq_refl)). pose proof (Z.le_max_l x z). lia.
      * specialize (Hle (Z.max x z) (or_introl eq_refl)). pose proof (Z.le_max_r x z). lia.
      * exact (Hle y (or_intror Hy)).
Qed.

(** Two maxima of one list coincide. *)
Lemma max_unique (l : list Z) (a b : Z) :
  In a l -> (forall y, In y l -> y <= a) -> In b l -> (forall y, In y l -> y <= b) -> a = b.
Proof. intros Ha Hla Hb Hlb. specialize (Hla b Hb). specialize (Hlb a Ha). lia. Qed.

(** [coly.sort(); coly[-1]] is the maximum of [coly]. *)
Lemma py_last_sort_max (l : list Z) (x : Z) (xs : list Z) :
  l = x :: xs -> py_last (py_sort l) = Ok (fold_left Z.max xs x).
Proof.
  intros ->. unfold py_last.
  destruct (rev (py_sort (x :: xs))) as [|m rest] eqn:Er.
  - exfalso. apply (f_equal (@List.length Z)) in Er. rewrite length_rev in Er.
    rewrite <- (Permutation_length (py_sort_perm (x :: xs))) in Er. discriminate.
  - destruct (sorted_last_max _ _ _ (py_sort_sorted (x :: xs)) Er) as [Hin Hle].
    destruct (fold_max_spec xs x) as [Fin Fle].
    f_equal. apply (max_unique (x :: xs)); try assumption.
    + apply (Permutation_in _ (Permutation_sym (py_sort_perm _)) Hin).
    + intros y Hy. apply Hle, (Permutation_in _ (py_sort_perm _) Hy).
Qed.

(** ** Bins *)

Lemma p99_index_lt (n : nat) : (0 < n)%nat -> (p99_index n < n)%nat.
Proof.
  intros H. unfold p99_index.
  assert (Z.of_nat n * 99 / 100 < Z.of_nat n).
  { apply Z.div_lt_upper_bound; lia. }
  assert (0 <= Z.of_nat n * 99 / 100) by (apply Z.div_pos; lia).
  lia.
Qed.

Lemma bin_index_ok (vs : list Z) :
  vs <> [] -> py_index (py_sort vs) (p99_index (List.length (py_sort vs))) = Ok (bin_tail vs).
Proof.
  intros H. unfold py_index, bin_tail.
  rewrite <- (Permutation_length (py_sort_perm vs)).
  rewrite (nth_error_nth' (py_sort vs) 0); [reflexivity|].
  rewrite <- (Permutation_length (py_sort_perm vs)).
  apply p99_index_lt. destruct vs; [congruence | simpl; lia].
Qed.

Lemma bins_ok (start : option Z) (d : timeline) :
  Forall (fun b => snd b <> []) d ->
  bins start d = Ok (map (fun b => offset (fst b) start) d, map (fun b => bin_tail (snd b)) d).
Proof.
  induction 1 as [|[ts vs] d Hne _ IH]; simpl; [reflexivity|].
  rewrite (bin_index_ok vs Hne). cbn [bind]. rewrite IH. reflexivity.
Qed.

(** ** The latency loop *)

Lemma dict_append_keys (k v x : Z) (d : timeline) :
  In x (bin_keys (dict_append k v d)) <-> x = k \/ In x (bin_keys d).
Proof.
  unfold bin_keys. induction d as [|[k' vs] d IH]; simpl.
  - split; [intros [<-|[]]; left; reflexivity | intros [->|[]]; left; reflexivity].
  - destruct (Z.eqb_spec k k') as [->|Hk]; simpl.
    + split; [intros [<-|H]; auto | intros [->|[<-|H]]; auto].
    + rewrite IH. split; [intros [<-|[->|H]]; auto | intros [->|[<-|H]]; auto].
Qed.

Lemma dict_append_nonempty (k v : Z) (d : timeline) :
  Forall (fun b => snd b <> []) d -> Forall (fun b => snd b <> []) (dict_append k v d).
Proof.
  induction 1 as [|[k' vs] d Hvs Hd IH]; simpl.
  - constructor; [discriminate | constructor].
  - destruct (k =? k').
    + constructor; [|exact Hd]. simpl.
      intros Happ. apply app_eq_nil in Happ as [_ Habs]. discriminate.
    + constructor; [exact Hvs | exact IH].
Qed.

Lemma lat_init_inv : lat_inv lat_init.
Proof. split; [constructor | reflexivity]. Qed.

Lemma process_line_inv (st st' : lat_state) (r : string) :
  lat_inv st -> process_line st r = Ok st' -> lat_inv st'.
Proof.
  intros [Hne Hs] H. destruct (contains lat_marker r) eqn:Hc.
  - destruct (process_line_ok st st' r Hc H) as (seg & n & lseg & lat & _ & _ & _ & _ & ->).
    split; [apply dict_append_nonempty; exact Hne|]. simpl.
    destruct (start_ts st) as [s|]; simpl.
    + destruct Hs as [Hin Hle].
      destruct (coarsen n <? s) eqn:Et; [apply Z.ltb_lt in Et | apply Z.ltb_ge in Et]; split.
      * apply dict_append_keys. left; reflexivity.
      * intros x Hx. apply dict_append_keys in Hx as [->|Hx]; [lia | specialize (Hle x Hx); lia].
      * apply dict_append_keys. right; exact Hin.
      * intros x Hx. apply dict_append_keys in Hx as [->|Hx]; [lia | exact (Hle x Hx)].
    + rewrite Hs. simpl. split; [left; reflexivity | intros x [<-|[]]; lia].
  - rewrite (process_line_skip st r Hc) in H. injection H as <-. split; assumption.
Qed.

Lemma process_lines_inv (st st' : lat_state) (rs : list string) :
  lat_inv st -> process_lines st rs = Ok st' -> lat_inv st'.
Proof.
  revert st. induction rs as [|r rs IH]; intros st Hi H; simpl in H.
  - injection H as <-. exact Hi.
  - destruct (process_line st r) as [st1|e] eqn:E; cbn [bind] in H; [|discriminate].
    exact (IH st1 (process_line_inv _ _ _ Hi E) H).
Qed.

Lemma read_tasks_inv (st st' : lat_state) (files : list (option (list string))) :
  lat_inv st -> read_tasks st files = Ok st' -> lat_inv st'.
Proof.
  revert st. induction files as [|f files IH]; intros st Hi H; cbn [read_tasks] in H.
  - injection H as <-. exact Hi.
  - destruct (process_task st f) as [st1|e] eqn:E; cbn [bind] in H; [|discriminate].
    apply (IH st1); [|exact H].
    destruct f as [lines|]; simpl in E; [exact (process_lines_inv _ _ _ Hi E)|].
    injection E as <-. exact Hi.
Qed.

Lemma process_lines_marker_free (st : lat_state) (lines : list string) :
  Forall (fun r => contains lat_marker r = false) lines -> process_lines st lines = Ok st.
Proof.
  induction 1 as [|r rs Hr _ IH]; simpl; [reflexivity|].
  rewrite (process_line_skip st r Hr). exact IH.
Qed.

Lemma read_tasks_marker_free (st : lat_state) (files : list (option (list string))) :
  Forall marker_free files -> read_tasks st files = Ok st.
Proof.
  induction 1 as [|f fs Hf _ IH]; cbn [read_tasks]; [reflexivity|].
  destruct f as [lines|]; simpl; [|exact IH].
  rewrite (process_lines_marker_free st lines Hf). exact IH.
Qed.

Lemma latency_loop_err (fs : trace_fs) (ks : list Z) (ld : list (Z * Z)) (k : Z) (e : exn) :
  In k ks -> config_latency fs k = Err e -> exists e', latency_loop fs ks ld = Err e'.
Proof.
  revert ld. induction ks as [|k0 ks IH]; intros ld Hin He; [destruct Hin|].
  simpl. destruct Hin as [->|Hin].
  - rewrite He. exists e. reflexivity.
  - destruct (config_latency fs k0) as [v|e0]; cbn [bind]; [exact (IH _ Hin He)|].
    exists e0. reflexivity.
Qed.

(** [C9] Start offset.  For a configuration with at least one sample, the
    start offset [start_ts] is the least coarsened timestamp among all
    samples of all tasks (the seconds present in [temp_dict]), and every
    bin offset [ts - start_ts] is a finite nonnegative integer. *)
Theorem start_offset_is_min (fs : trace_fs) (k : Z) (st : lat_state)
    (col : list (option Z)) (coly : list Z) :
  config_bins fs k = Ok (st, (col, coly)) -> temp_dict st <> [] ->
  exists m, start_ts st = Some m /\ In m (bin_keys (temp_dict st)) /\
    (forall ts, In ts (bin_keys (temp_dict st)) -> m <= ts) /\
    Forall (fun o => exists z, o = Some z /\ 0 <= z) col.
Proof.
  intros H Hne. unfold config_bins in H.
  destruct (read_tasks lat_init (task_files fs k)) as [st0|e] eqn:E; cbn [bind] in H; [|discriminate].
  destruct (read_tasks_inv _ _ _ lat_init_inv E) as [Hb Hs].
  rewrite (bins_ok _ _ Hb) in H. cbn [bind] in H. injection H as -> <- <-.
  destruct (start_ts st) as [m|] eqn:Em; [|contradiction].
  destruct Hs as [Hin Hle]. exists m. split; [reflexivity|]. split; [exact Hin|]. split; [exact Hle|].
  apply Forall_forall. intros o Ho. apply in_map_iff in Ho as [[ts vs] [<- Hb']].
  simpl. eexists; split; [reflexivity|].
  specialize (Hle ts (in_map fst _ _ Hb')). simpl in Hle. lia.
Qed.

Lemma start_offset_is_min_witness :
  config_bins scenario_fs 1 = Ok (scenario_state, ([Some 0; Some 1], [42; 58])) /\
  temp_dict scenario_state <> [] /\
  exists m, start_ts scenario_state = Some m /\ In m (bin_keys (temp_dict scenario_state)) /\
    (forall ts, In ts (bin_keys (temp_dict scenario_state)) -> m <= ts) /\
    Forall (fun o => exists z, o = Some z /\ 0 <= z) [Some 0; Some 1].
Proof.
  assert (E : config_bins scenario_fs 1 = Ok (scenario_state, ([Some 0; Some 1], [42; 58])))
    by (vm_compute; reflexivity).
  assert (N : temp_dict scenario_state <> []) by discriminate.
  split; [exact E|]. split; [exact N|].
  exact (start_offset_is_min scenario_fs 1 scenario_state _ _ E N).
Defined.

(** [C3] Tail-latency scalar.  For a configuration whose timeline has at
    least one sample, the reported value [latency_dict[sync_keys]] is the
    maximum over all bins of [sorted(bin_values)[floor(0.99 * len(bin_values))]]. *)
Theorem spike_is_max_of_bin_tails (fs : trace_fs) (k : Z) (st : lat_state) :
  read_tasks lat_init (task_files fs k) = Ok st -> temp_dict st <> [] ->
  exists m, spike_spec (temp_dict st) = Some m /\ config_latency fs k = Ok m.
Proof.
  intros E Hne. destruct (read_tasks_inv _ _ _ lat_init_inv E) as [Hb _].
  unfold config_latency, config_bins. rewrite E. cbn [bind].
  rewrite (bins_ok _ _ Hb). cbn [bind snd].
  unfold spike_spec.
  destruct (map (fun b => bin_tail (snd b)) (temp_dict st)) as [|x xs] eqn:Em.
  - apply map_eq_nil in Em. contradiction.
  - exists (fold_left Z.max xs x). split; [reflexivity|]. apply py_last_sort_max. reflexivity.
Qed.

Lemma spike_is_max_of_bin_tails_witness :
  read_tasks lat_init (task_files scenario_fs 1) = Ok scenario_state /\
  temp_dict scenario_state <> [] /\
  exists m, spike_spec (temp_dict scenario_state) = Some m /\ config_latency scenario_fs 1 = Ok m.
Proof.
  assert (E : read_tasks lat_init (task_files scenario_fs 1) = Ok scenario_state)
    by (vm_compute; reflexivity).
  assert (N : temp_dict scenario_state <> []) by discriminate.
  split; [exact E|]. split; [exact N|].
  exact (spike_is_max_of_bin_tails scenario_fs 1 scenario_state E N).
Defined.

(** [C2] (amended) Empty timeline.  When every trace file of a
    configuration is missing or holds no latency-marker line, no sample is
    collected and [coly[-1]] on the empty list raises IndexError; [ReadFile]
    then raises instead of reporting a zero or undefined scalar. *)
Theorem empty_timeline_raises (fs : trace_fs) (k : Z) :
  Forall marker_free (task_files fs k) ->
  config_latency fs k = Err IndexError /\
  (In k keys -> forall (timers_plot : list string) (repeat_num : nat) (mfs : timer_fs),
     exists e, pareto_ReadFile timers_plot repeat_num fs mfs = Err e).
Proof.
  intros Hf. assert (Hl : config_latency fs k = Err IndexError).
  { unfold config_latency, config_bins. rewrite (read_tasks_marker_free _ _ Hf). reflexivity. }
  split; [exact Hl|]. intros Hin tp R mfs.
  destruct (latency_loop_err fs keys [] k IndexError Hin Hl) as [e He].
  exists e. unfold pareto_ReadFile. rewrite He. reflexivity.
Qed.

Lemma empty_timeline_raises_witness :
  Forall marker_free (task_files (fun _ _ => None) 1) /\
  config_latency (fun _ _ => None) 1 = Err IndexError.
Proof.
  assert (H : Forall marker_free (task_files (fun _ _ => None) 1))
    by (unfold task_files; simpl; repeat constructor).
  split; [exact H|]. exact (proj1 (empty_timeline_raises (fun _ _ => None) 1 H)).
Defined.

Lemma empty_timeline_counterexample :
  config_latency (fun _ _ => None) 1 = Err IndexError /\
  pareto_ReadFile ["sync"; "replication"; "update"]%string 1 (fun _ _ => None) (fun _ => Some [])
    = Err IndexError.
Proof. split; vm_compute; reflexivity. Qed.

(** [C4] (amended) Line recognition.  A line without
    ["endToEnd latency: "] is skipped with no error; a line that yields a
    sample contains both markers and adds exactly one sample; but a line
    with the latency marker and without ["ts: "] raises IndexError instead
    of being skipped. *)
Theorem line_recognition (st : lat_state) (r : string) :
  (contains lat_marker r = false -> process_line st r = Ok st) /\
  (contains lat_marker r = true -> contains ts_marker r = false ->
     process_line st r = Err IndexError) /\
  (forall st', process_line st r = Ok st' -> contains lat_marker r = true ->
     contains ts_marker r = true /\ sample_count st' = S (sample_count st)).
Proof.
  split; [apply process_line_skip|]. split; [apply process_line_no_ts|].
  intros st' H Hc. exact (process_line_sample st st' r H Hc).
Qed.

Lemma line_recognition_witness :
  process_line lat_init diagnostic_line = Ok lat_init /\
  process_line lat_init no_ts_line = Err IndexError /\
  contains ts_marker scenario_line_1 = true /\
  sample_count (mk_lat_state (Some 1680000000) [(1680000000, [42])]) = S (sample_count lat_init).
Proof.
  assert (H1 : contains lat_marker diagnostic_line = false) by (vm_compute; reflexivity).
  assert (H2 : contains lat_marker no_ts_line = true) by (vm_compute; reflexivity).
  assert (H3 : contains ts_marker no_ts_line = false) by (vm_compute; reflexivity).
  assert (H4 : process_line lat_init scenario_line_1
               = Ok (mk_lat_state (Some 1680000000) [(1680000000, [42])])) by (vm_compute; reflexivity).
  assert (H5 : contains lat_marker scenario_line_1 = true) by (vm_compute; reflexivity).
  split; [exact (proj1 (line_recognition lat_init diagnostic_line) H1)|].
  split; [exact (proj1 (proj2 (line_recognition lat_init no_ts_line)) H2 H3)|].
  exact (proj2 (proj2 (line_recognition lat_init scenario_line_1)) _ H4 H5).
Defined.

Lemma line_recognition_counterexample :
  contains lat_marker no_ts_line = true /\ contains ts_marker no_ts_line = false /\
  process_line lat_init no_ts_line = Err IndexError.
Proof. vm_compute. repeat split. Qed.

(** [C6] (amended) Timestamp coarsening.  A recognised line's second is
    [int(int(first 13 characters after "ts: ") / 1000)], the parsed integer
    divided by 1000 and truncated toward zero, which is floor division for
    the nonnegative epochs of real traces; the spec's two-line scenario
    gives bins 0 and 1 and a tail-latency scalar of 58. *)
Theorem coarsened_timestamp :
  (forall (st st' : lat_state) (r : string),
     process_line st r = Ok st' -> contains lat_marker r = true ->
     exists seg n latency,
       split1 ts_marker r = Ok seg /\ py_int (take13 seg) = Ok n /\
       st' = mk_lat_state (update_start (Z.quot n 1000) (start_ts st))
                          (dict_append (Z.quot n 1000) latency (temp_dict st)) /\
       (0 <= n -> Z.quot n 1000 = n / 1000)) /\
  config_bins scenario_fs 1 = Ok (scenario_state, ([Some 0; Some 1], [42; 58])) /\
  config_latency scenario_fs 1 = Ok 58.
Proof.
  split; [|split; vm_compute; reflexivity].
  intros st st' r H Hc.
  destruct (process_line_ok st st' r Hc H) as (seg & n & lseg & lat & E1 & E2 & _ & _ & ->).
  exists seg, n, lat. split; [exact E1|]. split; [exact E2|]. split; [reflexivity|].
  exact (coarsen_floor n).
Qed.

Lemma coarsened_timestamp_witness :
  process_line lat_init scenario_line_2
    = Ok (mk_lat_state (Some 1680000001) [(1680000001, [58])]) /\
  contains lat_marker scenario_line_2 = true /\
  exists seg n latency,
    split1 ts_marker scenario_line_2 = Ok seg /\ py_int (take13 seg) = Ok n /\
    mk_lat_state (Some 1680000001) [(1680000001, [58])]
      = mk_lat_state (update_start (Z.quot n 1000) None) (dict_append (Z.quot n 1000) latency []) /\
    (0 <= n -> Z.quot n 1000 = n / 1000).
Proof.
  assert (H : process_line lat_init scenario_line_2
              = Ok (mk_lat_state (Some 1680000001) [(1680000001, [58])])) by (vm_compute; reflexivity).
  assert (Hc : contains lat_marker scenario_line_2 = true) by (vm_compute; reflexivity).
  split; [exact H|]. split; [exact Hc|].
  exact (proj1 coarsened_timestamp lat_init _ scenario_line_2 H Hc).
Defined.

Lemma coarsened_timestamp_counterexample :
  split1 ts_marker negative_ts_line = Ok "-000000000001 endToEnd latency: 1"%string /\
  py_int (take13 "-000000000001 endToEnd latency: 1") = Ok (-1) /\
  process_line lat_init negative_ts_line = Ok (mk_lat_state (Some 0) [(0, [1])]) /\
  0 <> -1 / 1000.
Proof. vm_compute. repeat split; discriminate. Qed.

(** [C10] (amended) When a line raises.  A line without
    ["endToEnd latency: "] is skipped.  A line with it is processed without
    error exactly when ["ts: "] occurs, the first 13 characters of the text
    between the first ["ts: "] and the next one (or the line end) parse with
    [int()], and the text between the first latency marker and the next one
    (or the line end) parses with [int()]; any other such line raises. *)
Theorem line_parse_condition (st : lat_state) (r : string) :
  (contains lat_marker r = false -> process_line st r = Ok st) /\
  (contains lat_marker r = true ->
     ((exists st', process_line st r = Ok st') <->
      (exists seg, split1 ts_marker r = Ok seg /\ py_int_opt (take13 seg) <> None) /\
      (exists lseg, split1 lat_marker r = Ok lseg /\ py_int_opt lseg <> None))).
Proof. split; [apply process_line_skip | apply process_line_ok_iff]. Qed.

Lemma line_parse_condition_witness :
  process_line lat_init diagnostic_line = Ok lat_init /\
  exists st', process_line lat_init scenario_line_1 = Ok st'.
Proof.
  assert (H1 : contains lat_marker diagnostic_line = false) by (vm_compute; reflexivity).
  assert (H2 : contains lat_marker scenario_line_1 = true) by (vm_compute; reflexivity).
  split; [exact (proj1 (line_parse_condition lat_init diagnostic_line) H1)|].
  apply (proj2 (line_parse_condition lat_init scenario_line_1) H2).
  split.
  - exists "1680000000000 key: 3 endToEnd latency: 42"%string.
    split; [vm_compute; reflexivity | discriminate].
  - exists "42"%string. split; [vm_compute; reflexivity | discriminate].
Defined.

Lemma line_parse_condition_counterexample :
  (exists st, process_line lat_init double_marker_line = Ok st) /\
  after_first lat_marker double_marker_line = Some "5 endToEnd latency: 6"%string /\
  py_int_opt "5 endToEnd latency: 6" = None.
Proof.
  split; [eexists; vm_compute; reflexivity|]. split; vm_compute; reflexivity.
Qed.

(** ** Timer breakdowns and the returned curve *)

Lemma mfold_inv {A B : Type} (P : A -> Prop) (f : A -> B -> result A) (l : list B) (a a' : A) :
  (forall x b x', P x -> f x b = Ok x' -> P x') -> P a -> mfold f a l = Ok a' -> P a'.
Proof.
  intros Hf. revert a. induction l as [|b l IH]; intros a Ha H; simpl in H.
  - injection H as <-. exact Ha.
  - destruct (f a b) as [a1|e] eqn:E; cbn [bind] in H; [|discriminate].
    exact (IH a1 (Hf _ _ _ Ha E) H).
Qed.

Lemma mfold_err {A B : Type} (f : A -> B -> result A) (l : list B) (a : A) (b : B) :
  In b l -> (forall x, exists e, f x b = Err e) -> exists e, mfold f a l = Err e.
Proof.
  revert a. induction l as [|b0 l IH]; intros a Hin Hf; [destruct Hin|]. simpl.
  destruct Hin as [->|Hin].
  - destruct (Hf a) as [e He]. rewrite He. exists e. reflexivity.
  - destruct (f a b0) as [a1|e]; cbn [bind]; [exact (IH a1 Hin Hf)|]. exists e. reflexivity.
Qed.

Lemma set_nth_length {A : Type} (l l' : list A) (i : nat) (v : A) :
  set_nth l i v = Some l' -> List.length l' = List.length l.
Proof.
  revert l l'. induction i as [|i IH]; intros [|x l] l' H; simpl in H; try discriminate.
  - injection H as <-. reflexivity.
  - destruct (set_nth l i v) as [l1|] eqn:E; simpl in H; [|discriminate].
    injection H as <-. simpl. rewrite (IH _ _ E). reflexivity.
Qed.

Lemma set_nth_forall {A : Type} (P : A -> Prop) (l l' : list A) (i : nat) (v : A) :
  Forall P l -> P v -> set_nth l i v = Some l' -> Forall P l'.
Proof.
  revert l l'. induction i as [|i IH]; intros [|x l] l' Hl Hv H; simpl in H; try discriminate;
    apply Forall_cons_iff in Hl as [Hx Hl].
  - injection H as <-. constructor; assumption.
  - destruct (set_nth l i v) as [l1|] eqn:E; simpl in H; [|discriminate].
    injection H as <-. constructor; [exact Hx | exact (IH _ _ Hl Hv E)].
Qed.

Lemma set2_shape (w h : nat) (y y' : matrix) (j i : nat) (v : Q) :
  shape w h y -> set2 y j i v = Ok y' -> shape w h y'.
Proof.
  intros [Hh Hw] H. unfold set2 in H.
  destruct (nth_error y j) as [row|] eqn:Er; cbn [of_option bind] in H; [|discriminate].
  destruct (set_nth row i v) as [row'|] eqn:Er'; cbn [of_option bind] in H; [|discriminate].
  destruct (set_nth y j row') as [y2|] eqn:Ey; cbn [of_option] in H; [|discriminate].
  injection H as <-.
  assert (Hrow : List.length row = w).
  { rewrite Forall_forall in Hw. apply Hw. exact (nth_error_In _ _ Er). }
  split; [rewrite (set_nth_length _ _ _ _ Ey); exact Hh|].
  apply (set_nth_forall _ y y2 j row'); [exact Hw | | exact Ey].
  rewrite (set_nth_length _ _ _ _ Er'). exact Hrow.
Qed.

Lemma update_cell_shape (w h : nat) (timers_plot : list string) (s : stats) (i j : nat) (y y' : matrix) :
  shape w h y -> update_cell timers_plot s i y j = Ok y' -> shape w h y'.
Proof.
  intros Hs H. unfold update_cell in H.
  destruct (nth_error timers_plot j) as [name|]; cbn [of_option bind] in H; [|discriminate].
  destruct (stats_get name s) as [v|].
  - destruct (get2 y j i) as [cur|e]; cbn [bind] in H; [|discriminate].
    exact (set2_shape _ _ _ _ _ _ _ Hs H).
  - exact (set2_shape _ _ _ _ _ _ _ Hs H).
Qed.

Lemma update_column_shape (w h : nat) (timers_plot : list string) (s : stats) (i : nat) (y y' : matrix) :
  shape w h y -> update_column timers_plot s y i = Ok y' -> shape w h y'.
Proof.
  apply mfold_inv. intros x j x' Hx E. exact (update_cell_shape _ _ _ _ _ _ _ _ Hx E).
Qed.

Lemma timer_loop_shape (timers_plot : list string) (mfs : timer_fs) (r : nat) (y y' : matrix) :
  shape 7 3 y -> timer_loop timers_plot mfs r y = Ok y' -> shape 7 3 y'.
Proof.
  revert y. induction r as [|r IH]; intros y Hs H; simpl in H.
  - injection H as <-. exact Hs.
  - destruct (timer_pass timers_plot mfs y) as [y1|e] eqn:E; cbn [bind] in H; [|discriminate].
    apply (IH y1); [|exact H].
    revert E. apply mfold_inv; [|exact Hs].
    intros x ik x' Hx Ex. destruct (mfs (snd ik)) as [st|]; cbn [of_option bind] in Ex; [|discriminate].
    exact (update_column_shape _ _ _ _ _ _ _ Hx Ex).
Qed.

Lemma average_shape (w h : nat) (y ya : matrix) (r : nat) :
  shape w h y -> average y r = Ok ya -> shape w h ya.
Proof.
  intros [Hh Hw] H. unfold average in H. destruct (Nat.eqb r 0); [discriminate|].
  injection H as <-. split; [rewrite length_map; exact Hh|].
  apply Forall_map. eapply Forall_impl; [|exact Hw]. intros row Hr. rewrite length_map. exact Hr.
Qed.

Lemma zeros_shape : shape 7 3 (zeros 7 3).
Proof. split; [reflexivity | repeat constructor]. Qed.

Lemma dict_set_keys {V : Type} (k : Z) (v : V) (d : list (Z * V)) :
  ~ In k (map fst d) -> map fst (dict_set k v d) = map fst d ++ [k].
Proof.
  induction d as [|[k' v'] d IH]; simpl; intros Hn; [reflexivity|].
  destruct (Z.eqb_spec k k') as [->|Hk]; [exfalso; apply Hn; left; reflexivity|].
  simpl. rewrite IH; [reflexivity | intros H; apply Hn; right; exact H].
Qed.

Lemma latency_loop_keys (fs : trace_fs) (ks : list Z) (ld ld' : list (Z * Z)) :
  NoDup (map fst ld ++ ks) -> latency_loop fs ks ld = Ok ld' -> map fst ld' = map fst ld ++ ks.
Proof.
  revert ld. induction ks as [|k ks IH]; intros ld Hnd H; simpl in H.
  - injection H as <-. rewrite app_nil_r. reflexivity.
  - destruct (config_latency fs k) as [v|e]; cbn [bind] in H; [|discriminate].
    assert (Hk : ~ In k (map fst ld)).
    { intros Hin. apply NoDup_remove_2 in Hnd. apply Hnd, in_or_app. left; exact Hin. }
    rewrite (IH (dict_set k v ld)).
    + rewrite (dict_set_keys k v ld Hk), <- app_assoc. reflexivity.
    + rewrite (dict_set_keys k v ld Hk), <- app_assoc. exact Hnd.
    + exact H.
Qed.

Lemma keys_nodup : NoDup keys.
Proof. unfold keys. repeat constructor; simpl; intuition discriminate. Qed.

Lemma keys_indexed (k : Z) :
  In k keys -> exists i, In (i, k) (combine (seq 0 (List.length keys)) keys).
Proof.
  simpl. intros [<-|[<-|[<-|[<-|[<-|[<-|[<-|[]]]]]]]];
    [exists 0%nat|exists 1%nat|exists 2%nat|exists 3%nat|exists 4%nat|exists 5%nat|exists 6%nat];
    simpl; repeat (first [left; reflexivity | right]).
Qed.

Lemma config_latency_marker_free (fs : trace_fs) (k : Z) :
  Forall marker_free (task_files fs k) -> config_latency fs k = Err IndexError.
Proof.
  intros Hf. unfold config_latency, config_bins. rewrite (read_tasks_marker_free _ _ Hf). reflexivity.
Qed.

Lemma process_lines_app (st : lat_state) (l1 l2 : list string) :
  process_lines st (l1 ++ l2) = let* st' := process_lines st l1 in process_lines st' l2.
Proof.
  revert st. induction l1 as [|r l1 IH]; intros st; simpl; [reflexivity|].
  destruct (process_line st r); cbn [bind]; [apply IH | reflexivity].
Qed.

Lemma read_tasks_present (st : lat_state) (files : list (option (list string))) :
  read_tasks st files = process_lines st (present_lines files).
Proof.
  unfold present_lines. revert st. induction files as [|f files IH]; intros st; [reflexivity|].
  cbn [read_tasks map List.concat]. destruct f as [lines|]; simpl.
  - rewrite process_lines_app. destruct (process_lines st lines); cbn [bind]; [apply IH | reflexivity].
  - apply IH.
Qed.

(** [C5] (amended) Missing files.  A missing trace file is skipped: the
    latency loop behaves as if only the existing files' lines were read, so
    it contributes no sample and raises nothing.  A missing timer file is
    not recovered: [open] raises and [ReadFile] does not return. *)
Theorem missing_file_policy :
  (forall (st : lat_state) (files : list (option (list string))),
     read_tasks st files = process_lines st (present_lines files)) /\
  (forall (timers_plot : list string) (repeat_num : nat) (tfs : trace_fs) (mfs : timer_fs) (k : Z),
     (0 < repeat_num)%nat -> In k keys -> mfs k = None ->
     exists e, pareto_ReadFile timers_plot repeat_num tfs mfs = Err e).
Proof.
  split; [exact read_tasks_present|].
  intros tp R tfs mfs k HR Hk Hm. unfold pareto_ReadFile.
  destruct (latency_loop tfs keys []) as [ld|e]; cbn [bind]; [|exists e; reflexivity].
  unfold phase_summary. destruct R as [|r]; [lia|]. cbn [timer_loop].
  destruct (keys_indexed k Hk) as [i Hi].
  destruct (mfold_err (fun y ik =>
                         let* s := of_option FileNotFoundError (mfs (snd ik)) in
                         update_column tp s y (fst ik))
                      _ (zeros 7 3) (i, k) Hi) as [e He].
  { intros x. exists FileNotFoundError. cbn [fst snd]. rewrite Hm. reflexivity. }
  unfold timer_pass. rewrite He. exists e. reflexivity.
Qed.

Lemma missing_file_policy_witness :
  read_tasks lat_init (task_files scenario_fs 1)
    = process_lines lat_init (present_lines (task_files scenario_fs 1)) /\
  exists e, pareto_ReadFile phase_names 1 scenario_fs (fun _ => None) = Err e.
Proof.
  split; [exact (proj1 missing_file_policy lat_init _)|].
  apply (proj2 missing_file_policy phase_names 1%nat scenario_fs (fun _ => None) 1);
    [lia | left; reflexivity | reflexivity].
Defined.

Lemma missing_file_policy_counterexample :
  pareto_ReadFile phase_names 1 scenario_fs (fun _ => None) = Err FileNotFoundError.
Proof. vm_compute. reflexivity. Qed.

(** [C8] (amended) Curve alignment.  Whenever [ReadFile] returns, [x_axis]
    is three copies of the sweep [keys] and each of the three [y_axis]
    series has exactly [len(keys)] entries, index-aligned with it; a key
    for which no latency sample exists does not get a 0 slot: [ReadFile]
    raises instead. *)
Theorem curve_alignment (timers_plot : list string) (repeat_num : nat) (tfs : trace_fs) (mfs : timer_fs) :
  (forall xs ys, pareto_ReadFile timers_plot repeat_num tfs mfs = Ok (xs, ys) ->
     xs = [keys; keys; keys] /\ List.length ys = 3%nat /\
     Forall (fun s => List.length s = List.length keys) ys) /\
  (forall k, In k keys -> Forall marker_free (task_files tfs k) ->
     exists e, pareto_ReadFile timers_plot repeat_num tfs mfs = Err e).
Proof.
  split.
  - intros xs ys H. unfold pareto_ReadFile in H.
    destruct (latency_loop tfs keys []) as [ld|e] eqn:El; cbn [bind] in H; [|discriminate].
    destruct (phase_summary timers_plot mfs repeat_num) as [[ya cd]|e] eqn:Ep; cbn [bind fst] in H;
      [|discriminate].
    injection H as <- <-.
    unfold phase_summary in Ep.
    destruct (timer_loop timers_plot mfs repeat_num (zeros 7 3)) as [y|e] eqn:Et; cbn [bind] in Ep;
      [|discriminate].
    destruct (average y repeat_num) as [ya'|e] eqn:Ea; cbn [bind] in Ep; [|discriminate].
    injection Ep as <- _.
    destruct (average_shape _ _ _ _ _ (timer_loop_shape _ _ _ _ _ zeros_shape Et) Ea) as [Hh Hw].
    pose proof (latency_loop_keys tfs keys [] ld keys_nodup El) as Hk.
    apply (f_equal (@List.length Z)) in Hk. rewrite length_map in Hk.
    rewrite Forall_forall in Hw.
    split; [reflexivity|]. split; [reflexivity|].
    repeat constructor.
    + apply Hw, nth_In. lia.
    + apply Hw, nth_In. lia.
    + rewrite length_map. exact Hk.
  - intros k Hk Hf.
    destruct (latency_loop_err tfs keys [] k IndexError Hk (config_latency_marker_free _ _ Hf)) as [e He].
    exists e. unfold pareto_ReadFile. rewrite He. reflexivity.
Qed.

Lemma curve_alignment_witness :
  pareto_ReadFile phase_names 1 scenario_fs sync10_fs = Ok scenario_curve /\
  fst scenario_curve = [keys; keys; keys] /\ List.length (snd scenario_curve) = 3%nat /\
  Forall (fun s => List.length s = List.length keys) (snd scenario_curve).
Proof.
  assert (E : pareto_ReadFile phase_names 1 scenario_fs sync10_fs
              = Ok (fst scenario_curve, snd scenario_curve)) by (vm_compute; reflexivity).
  split; [exact E|].
  exact (proj1 (curve_alignment phase_names 1 scenario_fs sync10_fs) _ _ E).
Defined.

Lemma curve_alignment_counterexample :
  pareto_ReadFile phase_names 1 (fun k tid => if Z.eqb k 1 then None else scenario_fs k tid) sync10_fs
    = Err IndexError.
Proof. vm_compute. reflexivity. Qed.

(** [C1] Averaging over repeated runs.  In breakdown_batching_input_rate.py
    [col_y] is created inside [for repeat ...], so a single run's durations
    are divided by [repeat_num]: with two runs whose timers both report
    sync 10, every averaged entry is 5, while the average over the two runs
    is (10 + 10) / 2 = 10. *)
Theorem breakdown_repeat_average :
  breakdown_ReadFile phase_names sync10_rate_fs 16 2 = Ok sync10_breakdown /\
  map (@List.length Q) sync10_breakdown = [8; 8; 8]%nat /\
  Forall (Forall (fun v => v == 5)%Q) sync10_breakdown /\
  (avg_spec [sync10; sync10] "sync" == 10)%Q.
Proof.
  split; [vm_compute; reflexivity|]. split; [vm_compute; reflexivity|].
  split; [|vm_compute; reflexivity].
  assert (B : forallb (forallb (fun v => Qeq_bool v 5)) sync10_breakdown = true)
    by (vm_compute; reflexivity).
  rewrite forallb_forall in B.
  apply Forall_forall. intros row Hrow. specialize (B row Hrow). rewrite forallb_forall in B.
  apply Forall_forall. intros v Hv. apply Qeq_bool_eq, B, Hv.
Qed.

(** In pareto_curve_batching.py an absent phase resets the running sum:
    three passes of the loop body over per-run breakdowns reporting sync
    10, sync 20 and nothing leave 0 in the cell, where the spec's average
    (10 + 20 + 0) / 3 is 10. *)
Lemma pareto_absent_phase_resets :
  mfold (fun y s => update_column phase_names s y 0) (zeros 7 3) [sync10; sync20; []]
    = Ok (zeros 7 3) /\
  (avg_spec [sync10; sync20; []] "sync" == 10)%Q.
Proof. split; vm_compute; reflexivity. Qed.

(* ================================================================== *)
(** * Further properties of the two [ReadFile] functions *)

(** ** Samples and bins *)

Lemma process_lines_count (st st' : lat_state) (rs : list string) :
  process_lines st rs = Ok st' -> sample_count st' = (sample_count st + marker_count rs)%nat.
Proof.
  unfold marker_count. revert st. induction rs as [|r rs IH]; intros st H; simpl in H.
  - injection H as <-. simpl. lia.
  - destruct (process_line st r) as [st1|e] eqn:E; cbn [bind] in H; [|discriminate].
    rewrite (IH st1 H). simpl. destruct (contains lat_marker r) eqn:Hc.
    + rewrite (proj2 (process_line_sample st st1 r E Hc)). simpl. lia.
    + rewrite (process_line_skip st r Hc) in E. injection E as <-. reflexivity.
Qed.

(** Every latency-marker line of an existing trace file adds exactly one
    sample to [temp_dict], and nothing else does. *)
Theorem config_sample_count (fs : trace_fs) (k : Z) (st : lat_state) :
  read_tasks lat_init (task_files fs k) = Ok st ->
  sample_count st = marker_count (present_lines (task_files fs k)).
Proof.
  intros H. rewrite read_tasks_present in H.
  rewrite (process_lines_count _ _ _ H). reflexivity.
Qed.

Lemma config_sample_count_witness :
  read_tasks lat_init (task_files scenario_fs 1) = Ok scenario_state /\
  sample_count scenario_state = marker_count (present_lines (task_files scenario_fs 1)).
Proof.
  assert (E : read_tasks lat_init (task_files scenario_fs 1) = Ok scenario_state)
    by (vm_compute; reflexivity).
  split; [exact E | exact (config_sample_count scenario_fs 1 scenario_state E)].
Defined.

Lemma py_last_in (l : list Z) (m : Z) : py_last l = Ok m -> In m l.
Proof.
  unfold py_last. destruct (rev l) as [|x rest] eqn:Er; [discriminate|].
  intros H. injection H as <-. apply in_rev. rewrite Er. left; reflexivity.
Qed.

Lemma bin_tail_in (vs : list Z) : vs <> [] -> In (bin_tail vs) vs.
Proof.
  intros H. unfold bin_tail.
  apply (Permutation_in _ (Permutation_sym (py_sort_perm vs))), nth_In.
  rewrite <- (Permutation_length (py_sort_perm vs)).
  apply p99_index_lt. destruct vs; [congruence | simpl; lia].
Qed.

(** The tail-latency scalar reported for a configuration is always one of
    the latencies parsed from its trace lines. *)
Theorem reported_latency_observed (fs : trace_fs) (k m : Z) :
  config_latency fs k = Ok m ->
  exists st, read_tasks lat_init (task_files fs k) = Ok st /\ In m (latency_values (temp_dict st)).
Proof.
  unfold config_latency, config_bins. intros H.
  destruct (read_tasks lat_init (task_files fs k)) as [st|e] eqn:Er; cbn [bind] in H; [|discriminate].
  destruct (read_tasks_inv _ _ _ lat_init_inv Er) as [Hne _].
  rewrite (bins_ok _ _ Hne) in H. cbn [bind snd] in H.
  exists st. split; [reflexivity|].
  apply py_last_in in H.
  apply (Permutation_in _ (Permutation_sym (py_sort_perm _))) in H.
  apply in_map_iff in H as [b [<- Hb]].
  rewrite Forall_forall in Hne.
  unfold latency_values. apply in_concat. exists (snd b). split.
  - apply in_map, Hb.
  - apply bin_tail_in, Hne, Hb.
Qed.

Lemma reported_latency_observed_witness :
  config_latency scenario_fs 1 = Ok 58 /\
  exists st, read_tasks lat_init (task_files scenario_fs 1) = Ok st /\
             In 58 (latency_values (temp_dict st)).
Proof.
  assert (E : config_latency scenario_fs 1 = Ok 58) by (vm_compute; reflexivity).
  split; [exact E | exact (reported_latency_observed scenario_fs 1 58 E)].
Defined.

Lemma p99_index_small (n : nat) : (1 <= n <= 100)%nat -> p99_index n = (n - 1)%nat.
Proof.
  intros Hn. unfold p99_index.
  rewrite <- (Z.div_unique_pos (Z.of_nat n * 99) 100 (Z.of_nat n - 1) (100 - Z.of_nat n)); lia.
Qed.

(** For a second holding between 1 and 100 samples, the value
    [sorted(...)[floor(len * 0.99)]] taken as its tail is the largest
    sample of that second. *)
Theorem bin_tail_small_is_max (vs : list Z) :
  (1 <= List.length vs <= 100)%nat ->
  In (bin_tail vs) vs /\ forall v, In v vs -> v <= bin_tail vs.
Proof.
  intros Hn. unfold bin_tail. rewrite (p99_index_small _ Hn).
  pose proof (py_sort_perm vs) as Hp.
  pose proof (Permutation_length Hp) as Hl.
  destruct (rev (py_sort vs)) as [|m rest] eqn:Er.
  - exfalso. apply (f_equal (@List.length Z)) in Er. rewrite length_rev in Er. simpl in Er. lia.
  - assert (Em : nth (List.length vs - 1) (py_sort vs) 0 = m).
    { rewrite Hl.
      replace (List.length (py_sort vs) - 1)%nat with (List.length (py_sort vs) - S 0)%nat by lia.
      rewrite <- rev_nth by lia. rewrite Er. reflexivity. }
    rewrite Em.
    destruct (sorted_last_max _ _ _ (py_sort_sorted vs) Er) as [Hin Hle].
    split.
    + exact (Permutation_in _ (Permutation_sym Hp) Hin).
    + intros v Hv. apply Hle, (Permutation_in _ Hp Hv).
Qed.

Lemma bin_tail_small_is_max_witness :
  (1 <= List.length [7; 3; 9; 1] <= 100)%nat /\
  In (bin_tail [7; 3; 9; 1]) [7; 3; 9; 1] /\ forall v, In v [7; 3; 9; 1] -> v <= bin_tail [7; 3; 9; 1].
Proof.
  split; [simpl; lia|]. apply bin_tail_small_is_max. simpl; lia.
Defined.

(** Once the trace files are read, the per-second pass (lines 91-95)
    never raises: it gives one [col] and one [coly] entry per second, and
    every [col] entry [ts - start_ts] is a finite, nonnegative offset. *)
Theorem bins_total (files : list (option (list string))) (st : lat_state) :
  read_tasks lat_init files = Ok st ->
  exists col coly, bins (start_ts st) (temp_dict st) = Ok (col, coly) /\
    List.length col = List.length (temp_dict st) /\ List.length coly = List.length (temp_dict st) /\
    Forall (fun o => exists x, o = Some x /\ 0 <= x) col.
Proof.
  intros H. destruct (read_tasks_inv _ _ _ lat_init_inv H) as [Hne Hs].
  rewrite (bins_ok _ _ Hne).
  eexists; eexists. split; [reflexivity|].
  rewrite !length_map. split; [reflexivity|]. split; [reflexivity|].
  apply Forall_map. destruct (start_ts st) as [s|].
  - destruct Hs as [_ Hle]. apply Forall_forall. intros b Hb.
    exists (fst b - s). split; [reflexivity|].
    specialize (Hle (fst b) (in_map fst _ _ Hb)). lia.
  - rewrite Hs. constructor.
Qed.

Lemma bins_total_witness :
  read_tasks lat_init (task_files scenario_fs 1) = Ok scenario_state /\
  exists col coly, bins (start_ts scenario_state) (temp_dict scenario_state) = Ok (col, coly) /\
    List.length col = List.length (temp_dict scenario_state) /\
    List.length coly = List.length (temp_dict scenario_state) /\
    Forall (fun o => exists x, o = Some x /\ 0 <= x) col.
Proof.
  assert (E : read_tasks lat_init (task_files scenario_fs 1) = Ok scenario_state)
    by (vm_compute; reflexivity).
  split; [exact E | exact (bins_total _ _ E)].
Defined.

(** ** The returned latency series *)

Lemma dict_set_fresh {V : Type} (k : Z) (v : V) (d : list (Z * V)) :
  ~ In k (map fst d) -> dict_set k v d = d ++ [(k, v)].
Proof.
  induction d as [|[k' v'] d IH]; simpl; intros Hn; [reflexivity|].
  destruct (Z.eqb_spec k k') as [->|Hk]; [exfalso; apply Hn; left; reflexivity|].
  rewrite IH; [reflexivity | intros H; apply Hn; right; exact H].
Qed.

Lemma latency_loop_values (fs : trace_fs) (ks : list Z) (ld ld' : list (Z * Z)) :
  NoDup (map fst ld ++ ks) -> latency_loop fs ks ld = Ok ld' ->
  exists ext, ld' = ld ++ ext /\
    Forall2 (fun k kv => fst kv = k /\ config_latency fs k = Ok (snd kv)) ks ext.
Proof.
  revert ld. induction ks as [|k ks IH]; intros ld Hnd H; simpl in H.
  - injection H as <-. exists []. split; [rewrite app_nil_r; reflexivity | constructor].
  - destruct (config_latency fs k) as [v|e] eqn:Ev; cbn [bind] in H; [|discriminate].
    assert (Hk : ~ In k (map fst ld)).
    { intros Hin. apply NoDup_remove_2 in Hnd. apply Hnd, in_or_app. left; exact Hin. }
    rewrite (dict_set_fresh k v ld Hk) in H.
    destruct (IH (ld ++ [(k, v)])) as [ext [-> Hext]].
    + rewrite map_app, <- app_assoc. exact Hnd.
    + exact H.
    + exists ((k, v) :: ext). split; [rewrite <- app_assoc; reflexivity|].
      constructor; [split; [reflexivity | exact Ev] | exact Hext].
Qed.

(** Whenever [ReadFile] returns, its third [y_axis] series lists, in the
    order of [keys], the tail-latency scalar computed for each key. *)
Theorem latency_series_in_key_order (timers_plot : list string) (repeat_num : nat)
    (tfs : trace_fs) (mfs : timer_fs) (xs : list (list Z)) (ys : list (list Q)) :
  pareto_ReadFile timers_plot repeat_num tfs mfs = Ok (xs, ys) ->
  Forall2 (fun k v => exists m, config_latency tfs k = Ok m /\ v = inject_Z m) keys (nth 2 ys []).
Proof.
  intros H. unfold pareto_ReadFile in H.
  destruct (latency_loop tfs keys []) as [ld|e] eqn:El; cbn [bind] in H; [|discriminate].
  destruct (phase_summary timers_plot mfs repeat_num) as [ps|e]; cbn [bind] in H; [|discriminate].
  injection H as _ <-. cbn [nth].
  destruct (latency_loop_values tfs keys [] ld keys_nodup El) as [ext [-> Hext]].
  simpl. clear El. induction Hext as [|k kv ks ext [Hk Hv] _ IH]; constructor; [|exact IH].
  exists (snd kv). split; [exact Hv | reflexivity].
Qed.

Lemma latency_series_in_key_order_witness :
  pareto_ReadFile phase_names 1 scenario_fs sync10_fs = Ok scenario_curve /\
  Forall2 (fun k v => exists m, config_latency scenario_fs k = Ok m /\ v = inject_Z m)
    keys (nth 2 (snd scenario_curve) []).
Proof.
  assert (E : pareto_ReadFile phase_names 1 scenario_fs sync10_fs
              = Ok (fst scenario_curve, snd scenario_curve)) by (vm_compute; reflexivity).
  split; [exact E | exact (latency_series_in_key_order _ _ _ _ _ _ E)].
Defined.

(** ** Cells of the timer matrices *)

Open Scope Q_scope.

Lemma nth_set_nth {A : Type} (l l' : list A) (i : nat) (v : A) (k : nat) (d : A) :
  set_nth l i v = Some l' -> nth k l' d = if Nat.eqb k i then v else nth k l d.
Proof.
  revert l l' k. induction i as [|i IH]; intros [|x l] l' k H; simpl in H; try discriminate.
  - injection H as <-. destruct k; reflexivity.
  - destruct (set_nth l i v) as [l1|] eqn:E; simpl in H; [|discriminate].
    injection H as <-. destruct k as [|k]; simpl; [reflexivity | exact (IH _ _ k E)].
Qed.

Lemma set_nth_some {A : Type} (l : list A) (i : nat) (v : A) :
  (i < List.length l)%nat -> exists l', set_nth l i v = Some l'.
Proof.
  revert l. induction i as [|i IH]; intros [|x l] H; simpl in H; try lia; simpl.
  - eexists; reflexivity.
  - destruct (IH l ltac:(lia)) as [l' E]. rewrite E. eexists; reflexivity.
Qed.

Lemma shape_row (w h : nat) (y : matrix) (j : nat) :
  shape w h y -> (j < h)%nat ->
  nth_error y j = Some (nth j y []) /\ List.length (nth j y []) = w.
Proof.
  intros [Hh Hw] Hj. split; [apply nth_error_nth'; lia|].
  rewrite Forall_forall in Hw. apply Hw, nth_In. lia.
Qed.

Lemma get2_cell (w h : nat) (y : matrix) (j i : nat) :
  shape w h y -> (j < h)%nat -> (i < w)%nat -> get2 y j i = Ok (cell y j i).
Proof.
  intros Hs Hj Hi. destruct (shape_row w h y j Hs Hj) as [Er Hl].
  unfold get2, cell. rewrite Er. cbn [of_option bind].
  rewrite (nth_error_nth' _ 0) by lia. reflexivity.
Qed.

Lemma set2_cell (w h : nat) (y : matrix) (j i : nat) (v : Q) :
  shape w h y -> (j < h)%nat -> (i < w)%nat ->
  exists y', set2 y j i v = Ok y' /\ shape w h y' /\
    forall j' i', cell y' j' i' = if Nat.eqb j' j && Nat.eqb i' i then v else cell y j' i'.
Proof.
  intros Hs Hj Hi. destruct (shape_row w h y j Hs Hj) as [Er Hl].
  destruct (set_nth_some (nth j y []) i v ltac:(lia)) as [row' Er'].
  destruct (set_nth_some y j row' ltac:(destruct Hs; lia)) as [y2 Ey].
  assert (E : set2 y j i v = Ok y2).
  { unfold set2. rewrite Er. cbn [of_option bind]. rewrite Er'. cbn [of_option bind].
    rewrite Ey. reflexivity. }
  exists y2. split; [exact E|]. split; [exact (set2_shape _ _ _ _ _ _ _ Hs E)|].
  intros j' i'. unfold cell. rewrite (nth_set_nth _ _ _ _ j' [] Ey).
  destruct (Nat.eqb j' j) eqn:Ej; simpl; [|reflexivity].
  apply Nat.eqb_eq in Ej. subst j'. exact (nth_set_nth _ _ _ _ i' 0 Er').
Qed.

Lemma update_cell_cell (w h : nat) (timers_plot : list string) (s : stats) (i : nat)
    (y : matrix) (j : nat) (name : string) :
  shape w h y -> (j < h)%nat -> (i < w)%nat -> nth_error timers_plot j = Some name ->
  exists y', update_cell timers_plot s i y j = Ok y' /\ shape w h y' /\
    forall j' i', cell y' j' i' =
      if Nat.eqb j' j && Nat.eqb i' i then cell_step (stats_get name s) (cell y j' i')
      else cell y j' i'.
Proof.
  intros Hs Hj Hi Hn. unfold update_cell. rewrite Hn. cbn [of_option bind].
  destruct (stats_get name s) as [v|].
  - rewrite (get2_cell w h y j i Hs Hj Hi). cbn [bind].
    destruct (set2_cell w h y j i (cell y j i + v) Hs Hj Hi) as (y' & E & Hs' & Hc).
    exists y'. split; [exact E|]. split; [exact Hs'|]. intros j' i'. rewrite Hc.
    destruct (Nat.eqb j' j) eqn:Ej; destruct (Nat.eqb i' i) eqn:Ei; simpl; try reflexivity.
    apply Nat.eqb_eq in Ej, Ei. subst. reflexivity.
  - destruct (set2_cell w h y j i 0 Hs Hj Hi) as (y' & E & Hs' & Hc).
    exists y'. split; [exact E|]. split; [exact Hs'|]. intros j' i'. rewrite Hc. reflexivity.
Qed.

(** Cells of a matrix folded over a list, each step acting on each cell
    separately. *)
Lemma mfold_cells {B : Type} (w h : nat) (f : matrix -> B -> result matrix)
    (F : B -> nat -> nat -> Q -> Q) (l : list B) (y : matrix) :
  (forall y b, In b l -> shape w h y ->
     exists y', f y b = Ok y' /\ shape w h y' /\
       forall j i, (j < h)%nat -> (i < w)%nat -> cell y' j i = F b j i (cell y j i)) ->
  shape w h y ->
  exists y', mfold f y l = Ok y' /\ shape w h y' /\
    forall j i, (j < h)%nat -> (i < w)%nat ->
      cell y' j i = fold_left (fun x b => F b j i x) l (cell y j i).
Proof.
  revert y. induction l as [|b l IH]; intros y Hf Hs; simpl.
  - exists y. split; [reflexivity|]. split; [exact Hs | reflexivity].
  - destruct (Hf y b (or_introl eq_refl) Hs) as (y1 & E1 & Hs1 & Hc1). rewrite E1. cbn [bind].
    destruct (IH y1 (fun y0 b0 Hb => Hf y0 b0 (or_intror Hb)) Hs1) as (y2 & E2 & Hs2 & Hc2).
    exists y2. split; [exact E2|]. split; [exact Hs2|].
    intros j i Hj Hi. rewrite (Hc2 j i Hj Hi), (Hc1 j i Hj Hi). reflexivity.
Qed.

Lemma update_column_cells (w : nat) (timers_plot : list string) (s : stats) (y : matrix) (i : nat) :
  (3 <= List.length timers_plot)%nat -> (i < w)%nat -> shape w 3 y ->
  exists y', update_column timers_plot s y i = Ok y' /\ shape w 3 y' /\
    forall j i', (j < 3)%nat -> (i' < w)%nat ->
      cell y' j i' = if Nat.eqb i' i then cell_step (stats_get (nth j timers_plot EmptyString) s) (cell y j i')
                     else cell y j i'.
Proof.
  intros Hl Hi Hs. unfold update_column.
  destruct (mfold_cells w 3 (update_cell timers_plot s i)
              (fun b j' i' x => if Nat.eqb j' b && Nat.eqb i' i
                                then cell_step (stats_get (nth b timers_plot EmptyString) s) x else x)
              (seq 0 3) y) as (y' & E & Hs' & Hc); [| exact Hs |].
  - intros y0 b Hb Hs0. apply in_seq in Hb.
    destruct (update_cell_cell w 3 timers_plot s i y0 b (nth b timers_plot EmptyString) Hs0
                ltac:(lia) Hi ltac:(apply nth_error_nth'; lia)) as (y1 & E1 & Hs1 & Hc1).
    exists y1. split; [exact E1|]. split; [exact Hs1|]. intros j' i' _ _. exact (Hc1 j' i').
  - exists y'. split; [exact E|]. split; [exact Hs'|]. intros j i' Hj Hi'. rewrite (Hc j i' Hj Hi').
    destruct j as [|[|[|j]]]; [| | | lia]; simpl; destruct (Nat.eqb i' i); reflexivity.
Qed.

Lemma fold_column_step (G : Z -> Q -> Q) (ks : list Z) (a i : nat) (x : Q) :
  fold_left (fun x ik => if Nat.eqb i (fst ik) then G (snd ik) x else x)
            (combine (seq a (List.length ks)) ks) x
  = if Nat.leb a i && Nat.ltb i (a + List.length ks) then G (nth (i - a) ks 0%Z) x else x.
Proof.
  revert a x. induction ks as [|k ks IH]; intros a x.
  - simpl. destruct (Nat.leb a i) eqn:E1; destruct (Nat.ltb i (a + 0)) eqn:E2; simpl; try reflexivity.
    apply Nat.leb_le in E1. apply Nat.ltb_lt in E2. lia.
  - cbn [List.length seq combine fold_left fst snd]. rewrite IH.
    destruct (Nat.eqb_spec i a) as [->|Hne].
    + rewrite Nat.sub_diag. destruct (Nat.leb_spec (S a) a); [lia|].
      destruct (Nat.leb_spec a a); [|lia].
      destruct (Nat.ltb_spec a (a + S (List.length ks))); [reflexivity | lia].
    + destruct (Nat.leb_spec (S a) i); destruct (Nat.leb_spec a i); try lia; cbn [andb];
        destruct (Nat.ltb_spec i (S a + List.length ks));
        destruct (Nat.ltb_spec i (a + S (List.length ks))); try lia; try reflexivity.
      replace (i - a)%nat with (S (i - S a)) by lia. reflexivity.
Qed.

(** One sweep of [for i, key in enumerate(ks): stats = ...; for j in range(3): ...]
    over existing timer files. *)
Lemma sweep_cells (timers_plot : list string) (get : Z -> option stats) (ks : list Z) (y : matrix) :
  (3 <= List.length timers_plot)%nat -> (forall k, In k ks -> get k <> None) ->
  shape (List.length ks) 3 y ->
  exists y', mfold (fun y ik =>
                      let* s := of_option FileNotFoundError (get (snd ik)) in
                      update_column timers_plot s y (fst ik))
                   y (combine (seq 0 (List.length ks)) ks) = Ok y' /\
    shape (List.length ks) 3 y' /\
    forall j i, (j < 3)%nat -> (i < List.length ks)%nat ->
      cell y' j i = match get (nth i ks 0%Z) with
                    | Some s => cell_step (stats_get (nth j timers_plot EmptyString) s) (cell y j i)
                    | None => cell y j i
                    end.
Proof.
  intros Hl Hg Hs.
  destruct (mfold_cells (List.length ks) 3
              (fun y ik =>
                 let* s := of_option FileNotFoundError (get (snd ik)) in
                 update_column timers_plot s y (fst ik))
              (fun ik j i x => if Nat.eqb i (fst ik) then
                                 match get (snd ik) with
                                 | Some s => cell_step (stats_get (nth j timers_plot EmptyString) s) x
                                 | None => x
                                 end else x)
              (combine (seq 0 (List.length ks)) ks) y) as (y' & E & Hs' & Hc); [| exact Hs |].
  - intros y0 [i k] Hb Hs0. cbn [fst snd].
    pose proof (in_combine_l _ _ _ _ Hb) as Hi. apply in_seq in Hi.
    pose proof (in_combine_r _ _ _ _ Hb) as Hk.
    destruct (get k) as [s|] eqn:Eg; [|exfalso; exact (Hg k Hk Eg)]. cbn [of_option bind].
    destruct (update_column_cells (List.length ks) timers_plot s y0 i Hl ltac:(lia) Hs0) as (y1 & E1 & Hs1 & Hc1).
    exists y1. split; [exact E1|]. split; [exact Hs1|]. intros j i' Hj Hi'. exact (Hc1 j i' Hj Hi').
  - exists y'. split; [exact E|]. split; [exact Hs'|]. intros j i Hj Hi. rewrite (Hc j i Hj Hi).
    rewrite (fold_column_step
               (fun k x => match get k with
                           | Some s => cell_step (stats_get (nth j timers_plot EmptyString) s) x
                           | None => x
                           end) ks 0 i).
    rewrite Nat.sub_0_r. destruct (Nat.leb_spec 0 i); [|lia].
    destruct (Nat.ltb_spec i (0 + List.length ks)); [reflexivity | lia].
Qed.

Lemma iter_swap {A : Type} (g : A -> A) (r : nat) (x : A) :
  Nat.iter r g (g x) = g (Nat.iter r g x).
Proof. induction r as [|r IH]; simpl; [reflexivity | rewrite IH; reflexivity]. Qed.

Lemma timer_loop_cells (timers_plot : list string) (mfs : timer_fs) (r : nat) (y : matrix) :
  (3 <= List.length timers_plot)%nat -> (forall k, In k keys -> mfs k <> None) -> shape 7 3 y ->
  exists y', timer_loop timers_plot mfs r y = Ok y' /\ shape 7 3 y' /\
    forall j i, (j < 3)%nat -> (i < 7)%nat ->
      cell y' j i = Nat.iter r (fun x => match mfs (nth i keys 0%Z) with
                                         | Some s => cell_step (stats_get (nth j timers_plot EmptyString) s) x
                                         | None => x
                                         end) (cell y j i).
Proof.
  intros Hl Hm. revert y. induction r as [|r IH]; intros y Hs; cbn [timer_loop].
  - exists y. split; [reflexivity|]. split; [exact Hs | reflexivity].
  - destruct (sweep_cells timers_plot mfs keys y Hl Hm Hs) as (y1 & E1 & Hs1 & Hc1).
    unfold timer_pass. rewrite E1. cbn [bind].
    destruct (IH y1 Hs1) as (y2 & E2 & Hs2 & Hc2).
    exists y2. split; [exact E2|]. split; [exact Hs2|].
    intros j i Hj Hi. rewrite (Hc2 j i Hj Hi), (Hc1 j i Hj Hi).
    exact (iter_swap (fun x => match mfs (nth i keys 0%Z) with
                               | Some s => cell_step (stats_get (nth j timers_plot EmptyString) s) x
                               | None => x
                               end) r (cell y j i)).
Qed.

Lemma cell_zeros (w h j i : nat) : cell (zeros w h) j i = 0.
Proof.
  assert (E : forall (A : Type) (a d : A) n k, nth k (repeat a n) d = a \/ nth k (repeat a n) d = d).
  { intros A a d n. induction n as [|n IH]; intros [|k]; simpl; auto. }
  unfold cell, zeros. destruct (E _ (repeat 0 w) [] h j) as [-> | ->].
  - destruct (E _ 0 0 w i) as [-> | ->]; reflexivity.
  - destruct i; reflexivity.
Qed.

Lemma average_cell (w h : nat) (y ya : matrix) (r : nat) (j i : nat) :
  shape w h y -> average y r = Ok ya -> (j < h)%nat -> (i < w)%nat ->
  cell ya j i = cell y j i / inject_Z (Z.of_nat r).
Proof.
  intros Hs H Hj Hi. unfold average in H. destruct (Nat.eqb r 0); [discriminate|].
  injection H as <-. destruct (shape_row w h y j Hs Hj) as [_ Hl].
  set (g := fun v => v / inject_Z (Z.of_nat r)).
  unfold cell. pose proof (map_nth (map g) y [] j) as E1. cbn [map] in E1. rewrite E1.
  rewrite (nth_indep (map g (nth j y [])) 0 (g 0)) by (rewrite length_map; lia).
  rewrite map_nth. reflexivity.
Qed.

Lemma iter_cell_step (o : option Q) (r : nat) :
  (0 < r)%nat ->
  Nat.iter r (cell_step o) 0 == inject_Z (Z.of_nat r) * match o with Some v => v | None => 0 end.
Proof.
  intros Hr. destruct o as [v|].
  - clear Hr. induction r as [|r IH].
    + change (inject_Z (Z.of_nat 0)) with 0. simpl. ring.
    + cbn [Nat.iter]. unfold cell_step at 1.
      transitivity (inject_Z (Z.of_nat r) * v + v); [apply Qplus_comp; [exact IH | reflexivity]|].
      rewrite Nat2Z.inj_succ, <- Z.add_1_r, inject_Z_plus. change (inject_Z 1) with 1. ring.
  - destruct r as [|r]; [lia|]. simpl. ring.
Qed.

Lemma inject_nat_nonzero (r : nat) : (0 < r)%nat -> ~ inject_Z (Z.of_nat r) == 0.
Proof.
  intros Hr H. apply (proj1 (inject_Z_injective (Z.of_nat r) 0%Z)) in H. lia.
Qed.

Lemma timer_loop_missing (timers_plot : list string) (mfs : timer_fs) (r : nat) (y : matrix) (k : Z) :
  (0 < r)%nat -> In k keys -> mfs k = None -> exists e, timer_loop timers_plot mfs r y = Err e.
Proof.
  intros Hr Hk Hm. destruct r as [|r]; [lia|]. cbn [timer_loop].
  destruct (keys_indexed k Hk) as [i Hi]. unfold timer_pass.
  destruct (mfold_err (fun y ik =>
                         let* s := of_option FileNotFoundError (mfs (snd ik)) in
                         update_column timers_plot s y (fst ik))
                      _ y (i, k) Hi) as [e He].
  { intros x. exists FileNotFoundError. cbn [fst snd]. rewrite Hm. reflexivity. }
  rewrite He. exists e. reflexivity.
Qed.

Lemma update_column_short (timers_plot : list string) (s : stats) (y : matrix) (i : nat) :
  (List.length timers_plot < 3)%nat -> exists e, update_column timers_plot s y i = Err e.
Proof.
  intros Hl. unfold update_column. apply (mfold_err _ _ _ 2%nat); [simpl; tauto|].
  intros x. exists IndexError. unfold update_cell.
  rewrite (proj2 (nth_error_None timers_plot 2) ltac:(lia)). reflexivity.
Qed.

Lemma timer_loop_short (timers_plot : list string) (mfs : timer_fs) (r : nat) (y : matrix) :
  (0 < r)%nat -> (List.length timers_plot < 3)%nat -> exists e, timer_loop timers_plot mfs r y = Err e.
Proof.
  intros Hr Hl. destruct r as [|r]; [lia|]. cbn [timer_loop]. unfold timer_pass.
  destruct (mfold_err (fun y ik =>
                         let* s := of_option FileNotFoundError (mfs (snd ik)) in
                         update_column timers_plot s y (fst ik))
                      (combine (seq 0 (List.length keys)) keys) y (0%nat, 1%Z)) as [e He].
  - simpl. left; reflexivity.
  - intros x. cbn [fst snd]. destruct (mfs 1%Z) as [s|]; cbn [of_option bind].
    + exact (update_column_short timers_plot s x 0 Hl).
    + exists FileNotFoundError. reflexivity.
  - rewrite He. exists e. reflexivity.
Qed.

(** With at least three phase names, one run or more, and a timer file
    for every key, the averaging of lines 108-139 succeeds, and, since
    every run re-reads the same file, averaging gives back exactly that
    file's duration of phase [timers_plot[j]] (0 when the file lacks it). *)
Theorem phase_average_is_file_value (timers_plot : list string) (mfs : timer_fs) (repeat_num : nat) :
  (3 <= List.length timers_plot)%nat -> (0 < repeat_num)%nat ->
  (forall k, In k keys -> mfs k <> None) ->
  exists ya cd, phase_summary timers_plot mfs repeat_num = Ok (ya, cd) /\
    forall j i s, (j < 3)%nat -> (i < 7)%nat -> mfs (nth i keys 0%Z) = Some s ->
      cell ya j i == phase_value timers_plot s j.
Proof.
  intros Hl HR Hm.
  destruct (timer_loop_cells timers_plot mfs repeat_num (zeros 7 3) Hl Hm zeros_shape)
    as (y & Ey & Hsy & Hcy).
  unfold phase_summary. rewrite Ey. cbn [bind].
  assert (Ea : average y repeat_num
               = Ok (map (map (fun v => v / inject_Z (Z.of_nat repeat_num))) y)).
  { unfold average. destruct (Nat.eqb_spec repeat_num 0); [lia | reflexivity]. }
  rewrite Ea. cbn [bind]. eexists; eexists. split; [reflexivity|].
  intros j i s Hj Hi Hs.
  rewrite (average_cell 7 3 y _ repeat_num j i Hsy Ea Hj Hi), (Hcy j i Hj Hi), cell_zeros, Hs.
  rewrite (iter_cell_step _ _ HR). unfold phase_value.
  field. apply inject_nat_nonzero, HR.
Qed.

Lemma phase_average_is_file_value_witness :
  (3 <= List.length phase_names)%nat /\ (0 < 2)%nat /\
  (forall k, In k keys -> sync10_fs k <> None) /\
  exists ya cd, phase_summary phase_names sync10_fs 2 = Ok (ya, cd) /\
    forall j i s, (j < 3)%nat -> (i < 7)%nat -> sync10_fs (nth i keys 0%Z) = Some s ->
      cell ya j i == phase_value phase_names s j.
Proof.
  assert (Hm : forall k, In k keys -> sync10_fs k <> None) by (intros k _; discriminate).
  split; [simpl; lia|]. split; [lia|]. split; [exact Hm|].
  apply phase_average_is_file_value; [simpl; lia | lia | exact Hm].
Defined.

(** Whenever [ReadFile] returns, every key has a timer file, and the first
    two [y_axis] series hold, for each key in order, that file's durations
    of [timers_plot[0]] and [timers_plot[2]] (0 when absent):
    [timers_plot[1]] is summed but never returned. *)
Theorem phase_series_values (timers_plot : list string) (repeat_num : nat)
    (tfs : trace_fs) (mfs : timer_fs) (xs : list (list Z)) (ys : list (list Q)) :
  pareto_ReadFile timers_plot repeat_num tfs mfs = Ok (xs, ys) ->
  forall i, (i < 7)%nat -> exists s, mfs (nth i keys 0%Z) = Some s /\
    nth i (nth 0 ys []) 0 == phase_value timers_plot s 0 /\
    nth i (nth 1 ys []) 0 == phase_value timers_plot s 2.
Proof.
  intros H i Hi. unfold pareto_ReadFile in H.
  destruct (latency_loop tfs keys []) as [ld|e]; cbn [bind] in H; [|discriminate].
  destruct (phase_summary timers_plot mfs repeat_num) as [[ya cd]|e] eqn:Ep; cbn [bind fst] in H;
    [|discriminate].
  injection H as _ <-.
  assert (HR : (0 < repeat_num)%nat).
  { destruct repeat_num as [|r]; [|lia]. unfold phase_summary in Ep. discriminate. }
  assert (Hm : forall k, In k keys -> mfs k <> None).
  { intros k Hk Hn. destruct (timer_loop_missing timers_plot mfs repeat_num (zeros 7 3) k HR Hk Hn)
      as [e He].
    unfold phase_summary in Ep. rewrite He in Ep. discriminate. }
  assert (Hl : (3 <= List.length timers_plot)%nat).
  { destruct (Nat.lt_ge_cases (List.length timers_plot) 3) as [Hs|Hs]; [|exact Hs].
    destruct (timer_loop_short timers_plot mfs repeat_num (zeros 7 3) HR Hs) as [e He].
    unfold phase_summary in Ep. rewrite He in Ep. discriminate. }
  destruct (phase_average_is_file_value timers_plot mfs repeat_num Hl HR Hm) as (ya' & cd' & E & Hc).
  rewrite Ep in E. injection E as <- <-.
  destruct (mfs (nth i keys 0%Z)) as [s|] eqn:Es.
  - exists s. split; [reflexivity|]. cbn [nth].
    split; [exact (Hc 0%nat i s ltac:(lia) Hi Es) | exact (Hc 2%nat i s ltac:(lia) Hi Es)].
  - exfalso. apply (Hm (nth i keys 0%Z)); [apply nth_In; simpl; lia | exact Es].
Qed.

Lemma phase_series_values_witness :
  pareto_ReadFile phase_names 1 scenario_fs sync10_fs = Ok scenario_curve /\
  exists s, sync10_fs (nth 0 keys 0%Z) = Some s /\
    nth 0 (nth 0 (snd scenario_curve) []) 0 == phase_value phase_names s 0 /\
    nth 0 (nth 1 (snd scenario_curve) []) 0 == phase_value phase_names s 2.
Proof.
  assert (E : pareto_ReadFile phase_names 1 scenario_fs sync10_fs
              = Ok (fst scenario_curve, snd scenario_curve)) by (vm_compute; reflexivity).
  split; [exact E | exact (phase_series_values _ _ _ _ _ _ E 0 ltac:(lia))].
Defined.

(** [ReadFile(repeat_num=0)] never returns: if the latency loop gets
    through, the averaging [y[j][i] / repeat_num] raises ZeroDivisionError. *)
Theorem pareto_zero_repeats_raises (timers_plot : list string) (tfs : trace_fs) (mfs : timer_fs) :
  pareto_ReadFile timers_plot 0 tfs mfs
  = match latency_loop tfs keys [] with
    | Ok _ => Err ZeroDivisionError
    | Err e => Err e
    end.
Proof.
  unfold pareto_ReadFile. destruct (latency_loop tfs keys []); reflexivity.
Qed.

(** With fewer than three phase names in [timers_plot], [ReadFile] with
    one run or more never returns: [timers_plot[j]] raises for [j = 2]. *)
Theorem pareto_short_timers_plot_raises (timers_plot : list string) (repeat_num : nat)
    (tfs : trace_fs) (mfs : timer_fs) :
  (0 < repeat_num)%nat -> (List.length timers_plot < 3)%nat ->
  exists e, pareto_ReadFile timers_plot repeat_num tfs mfs = Err e.
Proof.
  intros HR Hl. unfold pareto_ReadFile.
  destruct (latency_loop tfs keys []) as [ld|e]; cbn [bind]; [|exists e; reflexivity].
  destruct (timer_loop_short timers_plot mfs repeat_num (zeros 7 3) HR Hl) as [e He].
  unfold phase_summary. rewrite He. exists e. reflexivity.
Qed.

Lemma pareto_short_timers_plot_raises_witness :
  (0 < 1)%nat /\ (List.length ["sync"; "update"]%string < 3)%nat /\
  exists e, pareto_ReadFile ["sync"; "update"]%string 1 scenario_fs sync10_fs = Err e.
Proof.
  split; [lia|]. split; [simpl; lia|].
  apply pareto_short_timers_plot_raises; [lia | simpl; lia].
Defined.

Close Scope Q_scope.

(** ** breakdown_batching_input_rate.py *)

Open Scope Q_scope.

Lemma bd_columns_cells (timers_plot : list string) (mfs : rate_timer_fs) (last_keys rate : Z) :
  (3 <= List.length timers_plot)%nat ->
  (forall k, In k (bd_sync_keys last_keys) -> mfs rate k <> None) ->
  exists col, bd_columns timers_plot mfs last_keys rate = Ok col /\ shape 3 3 col /\
    forall j i, (j < 3)%nat -> (i < 3)%nat ->
      cell col j i = match mfs rate (nth i (bd_sync_keys last_keys) 0%Z) with
                     | Some s => cell_step (stats_get (nth j timers_plot EmptyString) s) 0
                     | None => 0
                     end.
Proof.
  intros Hl Hg.
  destruct (sweep_cells timers_plot (mfs rate) (bd_sync_keys last_keys) (zeros 3 3) Hl Hg
              ltac:(split; [reflexivity | repeat constructor])) as (col & E & Hs & Hc).
  exists col. split; [exact E|]. split; [exact Hs|].
  intros j i Hj Hi. rewrite (Hc j i Hj Hi), cell_zeros. reflexivity.
Qed.

Lemma bd_completion_entry (timers_plot : list string) (mfs : rate_timer_fs) (last_keys rate : Z)
    (repeat_num : nat) (col col' : matrix) (i : nat) :
  (0 < repeat_num)%nat -> shape 3 3 col ->
  (forall j i, (j < 3)%nat -> (i < 3)%nat ->
     cell col j i = match mfs rate (nth i (bd_sync_keys last_keys) 0%Z) with
                    | Some s => cell_step (stats_get (nth j timers_plot EmptyString) s) 0
                    | None => 0
                    end) ->
  average col repeat_num = Ok col' -> (i < 3)%nat ->
  completion_of col' i == bd_entry timers_plot mfs last_keys repeat_num rate i.
Proof.
  intros HR Hs Hc Ea Hi.
  assert (Ec : completion_of col' i = 0 + cell col' 0 i + cell col' 1 i + cell col' 2 i)
    by reflexivity.
  rewrite Ec, !(average_cell 3 3 col col' repeat_num _ i Hs Ea) by lia.
  rewrite !Hc by lia. unfold bd_entry.
  destruct (mfs rate (nth i (bd_sync_keys last_keys) 0%Z)) as [s|].
  - unfold phase_total, phase_value, cell_step.
    destruct (stats_get (nth 0 timers_plot EmptyString) s);
      destruct (stats_get (nth 1 timers_plot EmptyString) s);
      destruct (stats_get (nth 2 timers_plot EmptyString) s);
      field; apply inject_nat_nonzero, HR.
  - field. apply inject_nat_nonzero, HR.
Qed.

Lemma bd_rate_rows (timers_plot : list string) (mfs : rate_timer_fs) (last_keys : Z)
    (repeat_num : nat) (rate : Z) (r0 r1 r2 : list Q) :
  (3 <= List.length timers_plot)%nat -> (0 < repeat_num)%nat ->
  (forall k, In k (bd_sync_keys last_keys) -> mfs rate k <> None) ->
  exists c : nat -> Q,
    bd_rate timers_plot mfs last_keys repeat_num [r0; r1; r2] rate
      = Ok [r0 ++ [c 0%nat]; r1 ++ [c 1%nat]; r2 ++ [c 2%nat]] /\
    forall i, (i < 3)%nat -> c i == bd_entry timers_plot mfs last_keys repeat_num rate i.
Proof.
  intros Hl HR Hg.
  destruct (bd_columns_cells timers_plot mfs last_keys rate Hl Hg) as (col & E & Hs & Hc).
  assert (Ea : average col repeat_num
               = Ok (map (map (fun v => v / inject_Z (Z.of_nat repeat_num))) col)).
  { unfold average. destruct (Nat.eqb_spec repeat_num 0); [lia | reflexivity]. }
  exists (completion_of (map (map (fun v => v / inject_Z (Z.of_nat repeat_num))) col)).
  split.
  - unfold bd_rate. rewrite E. cbn [bind]. rewrite Ea. cbn [bind]. reflexivity.
  - intros i Hi. exact (bd_completion_entry _ _ _ _ _ _ _ i HR Hs Hc Ea Hi).
Qed.

Lemma bd_rates_rows (timers_plot : list string) (mfs : rate_timer_fs) (last_keys : Z)
    (repeat_num : nat) (rs : list Z) (r0 r1 r2 : list Q) :
  (3 <= List.length timers_plot)%nat -> (0 < repeat_num)%nat ->
  (forall rate k, In rate rs -> In k (bd_sync_keys last_keys) -> mfs rate k <> None) ->
  exists ext : nat -> list Q,
    mfold (bd_rate timers_plot mfs last_keys repeat_num) [r0; r1; r2] rs
      = Ok [r0 ++ ext 0%nat; r1 ++ ext 1%nat; r2 ++ ext 2%nat] /\
    forall i, (i < 3)%nat ->
      Forall2 Qeq (ext i) (map (fun rate => bd_entry timers_plot mfs last_keys repeat_num rate i) rs).
Proof.
  intros Hl HR. revert r0 r1 r2. induction rs as [|rate rs IH]; intros r0 r1 r2 Hg.
  - exists (fun _ => []). rewrite !app_nil_r. split; [reflexivity | intros; constructor].
  - destruct (bd_rate_rows timers_plot mfs last_keys repeat_num rate r0 r1 r2 Hl HR
                (fun k Hk => Hg rate k (or_introl eq_refl) Hk)) as (c & E & Hc).
    cbn [mfold]. rewrite E. cbn [bind].
    destruct (IH (r0 ++ [c 0%nat]) (r1 ++ [c 1%nat]) (r2 ++ [c 2%nat])
                (fun rate' k Hr Hk => Hg rate' k (or_intror Hr) Hk)) as (ext & E' & Hext).
    exists (fun i => c i :: ext i). rewrite E', <- !app_assoc. split; [reflexivity|].
    intros i Hi. cbn [map]. constructor; [exact (Hc i Hi) | exact (Hext i Hi)].
Qed.

Lemma bd_repeat_rows (timers_plot : list string) (mfs : rate_timer_fs) (last_keys : Z)
    (repeat_num r : nat) (r0 r1 r2 : list Q) :
  (3 <= List.length timers_plot)%nat -> (0 < repeat_num)%nat ->
  (forall rate k, In rate rates -> In k (bd_sync_keys last_keys) -> mfs rate k <> None) ->
  exists ext : nat -> list Q,
    bd_repeat timers_plot mfs last_keys repeat_num r [r0; r1; r2]
      = Ok [r0 ++ ext 0%nat; r1 ++ ext 1%nat; r2 ++ ext 2%nat] /\
    forall i, (i < 3)%nat ->
      Forall2 Qeq (ext i)
        (List.concat (repeat (map (fun rate => bd_entry timers_plot mfs last_keys repeat_num rate i) rates) r)).
Proof.
  intros Hl HR Hg. revert r0 r1 r2. induction r as [|r IH]; intros r0 r1 r2.
  - exists (fun _ => []). rewrite !app_nil_r. split; [reflexivity | intros; constructor].
  - cbn [bd_repeat].
    destruct (bd_rates_rows timers_plot mfs last_keys repeat_num rates r0 r1 r2 Hl HR Hg)
      as (ext1 & E1 & H1).
    rewrite E1. cbn [bind].
    destruct (IH (r0 ++ ext1 0%nat) (r1 ++ ext1 1%nat) (r2 ++ ext1 2%nat)) as (ext2 & E2 & H2).
    exists (fun i => ext1 i ++ ext2 i). rewrite E2, <- !app_assoc. split; [reflexivity|].
    intros i Hi. cbn [repeat List.concat]. apply Forall2_app; [exact (H1 i Hi) | exact (H2 i Hi)].
Qed.

(** [ReadFile(repeat_num)] of breakdown_batching_input_rate.py, given at
    least three phase names and a timer file for every rate and sync key,
    returns three series (one per sync key [1], [8] and
    [int(max_parallelism / parallelism / 2)]); series [i] holds, for each
    of the [repeat_num] runs and each [per_task_rate] in
    [1000, 2000, 4000, 8000], the phase total of that one timer file
    divided by [repeat_num] ([4 * repeat_num] entries, none for
    [repeat_num = 0]). *)
Theorem breakdown_series_values (timers_plot : list string) (mfs : rate_timer_fs)
    (last_keys : Z) (repeat_num : nat) :
  (3 <= List.length timers_plot)%nat ->
  (forall rate k, In rate rates -> In k (bd_sync_keys last_keys) -> mfs rate k <> None) ->
  exists y, breakdown_ReadFile timers_plot mfs last_keys repeat_num = Ok y /\
    List.length y = 3%nat /\
    forall i, (i < 3)%nat ->
      Forall2 Qeq (nth i y [])
        (List.concat (repeat (map (fun rate => bd_entry timers_plot mfs last_keys repeat_num rate i)
                                  rates) repeat_num)).
Proof.
  intros Hl Hg. destruct repeat_num as [|r].
  - exists [[]; []; []]. split; [reflexivity|]. split; [reflexivity|].
    intros i Hi. destruct i as [|[|[|i]]]; [| | | lia]; constructor.
  - destruct (bd_repeat_rows timers_plot mfs last_keys (S r) (S r) [] [] [] Hl ltac:(lia) Hg)
      as (ext & E & H).
    exists [[] ++ ext 0%nat; [] ++ ext 1%nat; [] ++ ext 2%nat].
    split; [exact E|]. split; [reflexivity|].
    intros i Hi. destruct i as [|[|[|i]]]; [| | | lia]; exact (H _ Hi).
Qed.

Lemma breakdown_series_values_witness :
  (3 <= List.length phase_names)%nat /\
  (forall rate k, In rate rates -> In k (bd_sync_keys 16) -> sync10_rate_fs rate k <> None) /\
  exists y, breakdown_ReadFile phase_names sync10_rate_fs 16 2 = Ok y /\
    List.length y = 3%nat /\
    forall i, (i < 3)%nat ->
      Forall2 Qeq (nth i y [])
        (List.concat (repeat (map (fun rate => bd_entry phase_names sync10_rate_fs 16 2 rate i)
                                  rates) 2)).
Proof.
  assert (Hg : forall rate k, In rate rates -> In k (bd_sync_keys 16) -> sync10_rate_fs rate k <> None)
    by (intros rate k _ _; discriminate).
  split; [simpl; lia|]. split; [exact Hg|].
  apply breakdown_series_values; [simpl; lia | exact Hg].
Defined.

(** With one run or more, breakdown's [ReadFile] never returns when
    [timers_plot] has fewer than three names or when the timer file of
    some rate and sync key is missing. *)
Theorem breakdown_raises (timers_plot : list string) (mfs : rate_timer_fs)
    (last_keys : Z) (repeat_num : nat) :
  (0 < repeat_num)%nat ->
  ((List.length timers_plot < 3)%nat \/
   exists rate k, In rate rates /\ In k (bd_sync_keys last_keys) /\ mfs rate k = None) ->
  exists e, breakdown_ReadFile timers_plot mfs last_keys repeat_num = Err e.
Proof.
  intros HR Hc. destruct repeat_num as [|r]; [lia|].
  assert (Hcol : exists rate, In rate rates /\
            exists e, bd_columns timers_plot mfs last_keys rate = Err e).
  { unfold bd_columns. destruct Hc as [Hl | (rate & k & Hr & Hk & Hm)].
    - exists 1000%Z. split; [simpl; tauto|].
      apply (mfold_err _ _ _ (0%nat, 1%Z)); [simpl; tauto|].
      intros x. cbn [fst snd]. destruct (mfs 1000%Z 1%Z) as [s|]; cbn [of_option bind].
      + exact (update_column_short timers_plot s x 0 Hl).
      + exists FileNotFoundError. reflexivity.
    - exists rate. split; [exact Hr|].
      assert (Hik : exists i, In (i, k) (combine (seq 0 3) (bd_sync_keys last_keys))).
      { simpl in Hk. destruct Hk as [<-|[<-|[<-|[]]]];
          [exists 0%nat | exists 1%nat | exists 2%nat]; simpl; tauto. }
      destruct Hik as [i Hik]. apply (mfold_err _ _ _ (i, k) Hik).
      intros x. exists FileNotFoundError. cbn [fst snd]. rewrite Hm. reflexivity. }
  destruct Hcol as (rate & Hr & e & He).
  unfold breakdown_ReadFile. cbn [bd_repeat].
  destruct (mfold_err (bd_rate timers_plot mfs last_keys (S r)) rates [[]; []; []] rate Hr)
    as [e' He'].
  - intros x. exists e. unfold bd_rate. rewrite He. reflexivity.
  - rewrite He'. exists e'. reflexivity.
Qed.

Lemma breakdown_raises_witness :
  (0 < 1)%nat /\
  ((List.length phase_names < 3)%nat \/
   exists rate k, In rate rates /\ In k (bd_sync_keys 16) /\ (fun _ _ => None) rate k = @None stats) /\
  exists e, breakdown_ReadFile phase_names (fun _ _ => None) 16 1 = Err e.
Proof.
  assert (Hc : (List.length phase_names < 3)%nat \/
               exists rate k, In rate rates /\ In k (bd_sync_keys 16) /\
                              (fun _ _ => None) rate k = @None stats).
  { right. exists 1000%Z, 1%Z. split; [simpl; tauto|]. split; [simpl; tauto | reflexivity]. }
  split; [lia|]. split; [exact Hc|].
  exact (breakdown_raises phase_names (fun _ _ => None) 16 1 ltac:(lia) Hc).
Defined.

Close Scope Q_scope.

(** ** Completion times *)

Open Scope Q_scope.







Close Scope Q_scope.
